(** * ATM controller: session state machine over abstract collaborators

    A shallow embedding of [src/atm_controller.py] together with the data
    model ([src/models]), the exception hierarchy ([src/exceptions]), the
    collaborator interfaces ([src/interfaces]) and the test doubles
    ([src/mocks]).

    Python objects that are shared by reference and mutated in place (the
    [Account] instances handed out by the bank service and cached by the
    controller) live in an explicit object store; everything else is passed
    by value.  Exceptions are values of type [exn]; a computation is a state
    transformer returning either a value or a raised exception, with the
    state reached at the point of the raise. *)

From Stdlib Require Import ZArith Ascii.
From stdpp Require Import gmap strings list fin_maps pretty.

Local Open Scope string_scope.
Local Open Scope list_scope.
Local Open Scope Z_scope.

(** ** Exceptions ([src/exceptions/atm_exceptions.py]) *)

Inductive ExnClass : Set :=
  | Exception                           (* Python builtin, root of the hierarchy *)
  | ValueError                          (* Python builtin, raised by the models and mocks *)
  | ATMException
  | InvalidCardException
  | InvalidPinException
  | AccountNotFoundException
  | InsufficientFundsException
  | InsufficientCashException
  | TransactionLimitExceededException
  | ATMMaintenanceException.

Global Instance ExnClass_eq_dec : EqDecision ExnClass.
Proof. solve_decision. Defined.

(** An exception instance: its class and the message it was built with. *)
Record exn : Set := Exn { exn_class : ExnClass; exn_msg : string }.

Global Instance exn_eq_dec : EqDecision exn.
Proof. solve_decision. Defined.

(** The base class each class is declared with: [class ATMException(Exception)],
    [class InvalidCardException(ATMException)], ... *)
Definition base (c : ExnClass) : option ExnClass :=
  match c with
  | Exception => None
  | ValueError | ATMException => Some Exception
  | InvalidCardException | InvalidPinException | AccountNotFoundException
  | InsufficientFundsException | InsufficientCashException
  | TransactionLimitExceededException | ATMMaintenanceException => Some ATMException
  end.

(** The hierarchy is two levels deep below [Exception]. *)
Definition issubclass (c parent : ExnClass) : bool :=
  bool_decide (c = parent)
  || bool_decide (base c = Some parent)
  || bool_decide (base c ≫= base = Some parent).

Definition isinstance (e : exn) (c : ExnClass) : bool := issubclass (exn_class e) c.

(** ** Computations that may raise *)

Inductive Result (A : Type) : Type :=
  | Return (a : A)
  | Raise (e : exn).
Arguments Return {A} a.
Arguments Raise {A} e.

(** A Python method body over a mutable state [S]: mutations performed
    before a [raise] are kept. *)
Definition Py (S A : Type) : Type := S → Result A * S.

Definition ret {S A} (a : A) : Py S A := λ s, (Return a, s).
Definition raise {S A} (e : exn) : Py S A := λ s, (Raise e, s).
Definition bind {S A B} (m : Py S A) (k : A → Py S B) : Py S B :=
  λ s, match m s with
       | (Return a, s') => k a s'
       | (Raise e, s') => (Raise e, s')
       end.
Definition get {S} : Py S S := λ s, (Return s, s).
Definition gets {S A} (f : S → A) : Py S A := λ s, (Return (f s), s).
Definition modify {S} (f : S → S) : Py S unit := λ s, (Return tt, f s).

(** [try: body  except C: handler e] -- the handler runs on the state left
    by the body when the raised exception is an instance of [C]. *)
Definition try_except {S A} (body : Py S A) (C : exn → bool) (handler : exn → Py S A)
  : Py S A :=
  λ s, match body s with
       | (Return a, s') => (Return a, s')
       | (Raise e, s') => if C e then handler e s' else (Raise e, s')
       end.

Declare Scope py_scope.
Delimit Scope py_scope with py.
Notation "x <- m ;; k" := (bind m (λ x, k))
  (at level 100, m at next level, right associativity) : py_scope.
Notation "m ;;; k" := (bind m (λ _, k))
  (at level 100, right associativity) : py_scope.

(** ** Python string operations used by the models

    Strings are sequences of one-byte characters, which is what the
    identifiers handled here (digits) are made of. *)

(** [c * n] *)
Fixpoint str_repeat (c : string) (n : nat) : string :=
  match n with
  | O => ""
  | S n => c +:+ str_repeat c n
  end.

(** [s[-n:]] for [n > 0]: the last [n] characters, all of [s] when it is
    shorter. *)
Definition str_suffix (n : nat) (s : string) : string :=
  String.substring (String.length s - n) n s.

(** The body shared by [Account.mask_account_number] and
    [Card.mask_card_number]. *)
Definition masked (number : string) : string :=
  if (String.length number <? 4)%nat
  then str_repeat "*" (String.length number)
  else str_repeat "*" (String.length number - 4) +:+ str_suffix 4 number.

(** ** Account model ([src/models/account.py]) *)

Module Account.

Inductive AccountType : Set := CHECKING | SAVINGS | CREDIT.

Global Instance AccountType_eq_dec : EqDecision AccountType.
Proof. solve_decision. Defined.

Record t : Set := Build {
  account_number : string;
  account_type : AccountType;
  balance : Z;
  account_name : string;
  is_active : bool;
  daily_withdrawal_limit : option Z;    (* Optional[int] *)
}.

Global Instance t_eq_dec : EqDecision t.
Proof. solve_decision. Defined.

Global Instance t_inhabited : Inhabited t :=
  populate (Build "" CHECKING 0 "" false None).

(** [self.balance = b] *)
Definition set_balance (b : Z) (a : t) : t :=
  Build (account_number a) (account_type a) b (account_name a)
        (is_active a) (daily_withdrawal_limit a).

(** The dataclass constructor followed by [__post_init__]. *)
Definition new (account_number : string) (account_type : AccountType) (balance : Z)
    (account_name : string) (is_active : bool) (daily_withdrawal_limit : option Z)
  : Result t :=
  if decide (account_number = "") then Raise (Exn ValueError "Account number is required")
  else if decide (account_name = "") then Raise (Exn ValueError "Account name is required")
  else
    let limit :=
      match daily_withdrawal_limit with
      | None =>
          match account_type with
          | CHECKING => Some 1000
          | SAVINGS => Some 500
          | CREDIT => Some 300
          end
      | Some l => Some l
      end in
    Return (Build account_number account_type balance account_name is_active limit).

(** Truth value of an [Optional[int]]: [None] and [0] are both falsy. *)
Definition truthy (o : option Z) : bool :=
  match o with
  | None => false
  | Some l => negb (l =? 0)
  end.

Definition can_withdraw (self : t) (amount : Z) : bool :=
  if negb (is_active self) then false
  else if amount <=? 0 then false
  else if truthy (daily_withdrawal_limit self)
          && match daily_withdrawal_limit self with
             | Some l => l <? amount
             | None => false
             end
       then false
  else if decide (account_type self = CREDIT) then true
  else amount <=? balance self.

(** The daily-limit condition as the specification words it: the amount
    does not exceed the limit the account carries (an account without a
    limit constrains nothing). *)
Definition within_daily_limit (self : t) (amount : Z) : Prop :=
  match daily_withdrawal_limit self with
  | Some l => amount ≤ l
  | None => True
  end.

(** The right-hand side of the specification's [can_withdraw] invariant. *)
Definition withdrawal_allowed (self : t) (amount : Z) : Prop :=
  is_active self = true
  ∧ 0 < amount
  ∧ within_daily_limit self amount
  ∧ (account_type self ≠ CREDIT → amount ≤ balance self).

Definition mask_account_number (self : t) : string := masked (account_number self).

End Account.

(** ** Card model ([src/models/card.py]) *)

Module Card.

Record t : Set := Build {
  card_number : string;
  holder_name : string;
  expiry_date : Z;                      (* datetime, as an instant *)
  card_type : string;
  is_active : bool;
}.

Global Instance t_eq_dec : EqDecision t.
Proof. solve_decision. Defined.

(** The dataclass constructor followed by [__post_init__]; [now] is the
    reading of [datetime.now()] taken there. *)
Definition new (now : Z) (card_number holder_name : string) (expiry_date : Z)
    (card_type : string) (is_active : bool) : Result t :=
  if bool_decide (card_number = "") || (String.length card_number <? 12)%nat
  then Raise (Exn ValueError "Invalid card number")
  else if bool_decide (holder_name = "")
  then Raise (Exn ValueError "Cardholder name is required")
  else Return (Build card_number holder_name expiry_date card_type
                     (if expiry_date <? now then false else is_active)).

Definition is_expired (now : Z) (self : t) : bool := expiry_date self <? now.

Definition mask_card_number (self : t) : string := masked (card_number self).

End Card.

(** ** Transaction model ([src/models/transaction.py]) *)

Module Transaction.

Inductive TransactionType : Set := DEPOSIT | WITHDRAWAL | BALANCE_INQUIRY.

Global Instance TransactionType_eq_dec : EqDecision TransactionType.
Proof. solve_decision. Defined.

Record t : Set := Build {
  transaction_type : TransactionType;
  amount : Z;
  account_number : string;
  balance_after : Z;
  transaction_id : string;
  timestamp : Z;
}.

Global Instance t_eq_dec : EqDecision t.
Proof. solve_decision. Defined.

End Transaction.

(** ** The Python runtime services the models draw on

    [uuid.uuid4()] and [datetime.now()] are sources of fresh values outside
    the program; they are an oracle with a state of its own. *)

Module Runtime.

Class t (T : Type) := {
  uuid4 : T → string * T;
  datetime_now : T → Z * T;
}.

End Runtime.

(** [Transaction(transaction_type=…, amount=…, account_number=…, balance_after=…)]:
    [__post_init__] fills in the identifier and the timestamp, in this order. *)
Definition Transaction_new `{Runtime.t T} (ty : Transaction.TransactionType) (amount : Z)
    (account_number : string) (balance_after : Z) : T → Transaction.t * T :=
  λ rt, let '(id, rt1) := Runtime.uuid4 rt in
        let '(ts, rt2) := Runtime.datetime_now rt1 in
        (Transaction.Build ty amount account_number balance_after id ts, rt2).

(** ** The object store

    [Account] objects are passed by reference: the bank service, the list it
    returns and the controller's [_current_account] may all name the same
    object, and an assignment to [.balance] through one name is seen through
    the others.  A reference is a key of the store.  Python references never
    dangle; reading a key that is absent yields the default object, and
    writing to it creates the object, so that a read after a write always
    sees the value written. *)

Abbreviation ref := nat.
Abbreviation Heap := (gmap nat Account.t).

Definition deref (h : Heap) (r : ref) : Account.t := h !!! r.

(** [r.balance = b] *)
Definition assign_balance (r : ref) (b : Z) (h : Heap) : Heap :=
  <[r := Account.set_balance b (deref h r)]> h.

(** Creation of a new object. *)
Definition alloc (a : Account.t) (h : Heap) : ref * Heap :=
  let r := fresh (dom h) in (r, <[r := a]> h).

(** ** Collaborator interfaces ([src/interfaces]) *)

(** [BankService]: every method may read and write the bank's own state and
    the [Account] objects. *)
Module BankService.

Class t (B : Type) := {
  validate_card : string → Py (B * Heap) bool;
  verify_pin : string → string → Py (B * Heap) bool;
  get_accounts : string → Py (B * Heap) (list ref);
  get_account : string → Py (B * Heap) (option ref);
  get_balance : string → Py (B * Heap) Z;
  deposit : string → Z → Py (B * Heap) Z;
  withdraw : string → Z → Py (B * Heap) Z;
}.

End BankService.

Module CashDispenser.

Class t (D : Type) := {
  has_sufficient_cash : Z → Py D bool;
  dispense_cash : Z → Py D bool;
  get_available_cash : Py D Z;
  refill_cash : Z → Py D bool;
}.

End CashDispenser.

Module CardReader.

Class t (R : Type) := {
  read_card : string → Py R Card.t;
  eject_card : Py R bool;
  is_card_inserted : Py R bool;
}.

End CardReader.

(** ** Collaborator invocations

    The sequence of calls the controller makes on its collaborators, each
    with the arguments passed and the outcome received, is recorded so that
    statements such as "the ledger is never asked for a debit" can be made. *)

Module Call.

Inductive t : Type :=
  | validate_card (card_number : string) (r : Result bool)
  | verify_pin (card_number pin : string) (r : Result bool)
  | get_accounts (card_number : string) (r : Result (list ref))
  | get_account (account_number : string) (r : Result (option ref))
  | get_balance (account_number : string) (r : Result Z)
  | deposit (account_number : string) (amount : Z) (r : Result Z)
  | withdraw (account_number : string) (amount : Z) (r : Result Z)
  | has_sufficient_cash (amount : Z) (r : Result bool)
  | dispense_cash (amount : Z) (r : Result bool)
  | read_card (card_number : string) (r : Result Card.t)
  | eject_card (r : Result bool).

(** The method invoked, without arguments and outcome. *)
Inductive method : Set :=
  | m_validate_card | m_verify_pin | m_get_accounts | m_get_account
  | m_get_balance | m_deposit | m_withdraw
  | m_has_sufficient_cash | m_dispense_cash
  | m_read_card | m_eject_card.

Global Instance method_eq_dec : EqDecision method.
Proof. solve_decision. Defined.

Definition method_of (c : t) : method :=
  match c with
  | validate_card _ _ => m_validate_card
  | verify_pin _ _ _ => m_verify_pin
  | get_accounts _ _ => m_get_accounts
  | get_account _ _ => m_get_account
  | get_balance _ _ => m_get_balance
  | deposit _ _ _ => m_deposit
  | withdraw _ _ _ => m_withdraw
  | has_sufficient_cash _ _ => m_has_sufficient_cash
  | dispense_cash _ _ => m_dispense_cash
  | read_card _ _ => m_read_card
  | eject_card _ => m_eject_card
  end.

(** The order in which the controller's [withdraw] goes to its
    collaborators: cash check, balance read, debit, dispensing. *)
Definition withdraw_order : list method :=
  [m_has_sufficient_cash; m_get_balance; m_withdraw; m_dispense_cash].

(** The exception in an outcome, if it is one. *)
Definition exn_of {A} (r : Result A) : option exn :=
  match r with Raise e => Some e | Return _ => None end.

(** The exception a collaborator answered an invocation with, if it did. *)
Definition raised (c : t) : option exn :=
  match c with
  | validate_card _ r | has_sufficient_cash _ r | dispense_cash _ r | eject_card r
  | verify_pin _ _ r => exn_of r
  | get_accounts _ r => exn_of r
  | get_account _ r => exn_of r
  | get_balance _ r | deposit _ _ r | withdraw _ _ r => exn_of r
  | read_card _ r => exn_of r
  end.

End Call.

(** ** The controller ([src/atm_controller.py]) *)

Inductive ATMState : Set := IDLE | CARD_INSERTED | PIN_VERIFIED | ACCOUNT_SELECTED.

Global Instance ATMState_eq_dec : EqDecision ATMState.
Proof. solve_decision. Defined.

Module ATMController.

(** An [ATMController] instance with everything it can reach: its three
    collaborators, its four session fields, the object store, the runtime
    oracle, and the record of collaborator invocations made so far. *)
Record t {B D R T : Type} : Type := Build {
  _bank_service : B;
  _cash_dispenser : D;
  _card_reader : R;
  _state : ATMState;
  _current_card : option Card.t;
  _current_account : option ref;
  _transaction_history : list Transaction.t;
  heap : Heap;
  runtime : T;
  calls : list Call.t;
}.
Arguments t : clear implicits.

(** The session-scoped part of the controller. *)
Definition session {B D R T} (w : t B D R T)
  : ATMState * option Card.t * option ref * list Transaction.t :=
  (_state w, _current_card w, _current_account w, _transaction_history w).

Section Controller.

Context {B D R T : Type}.
Context `{!BankService.t B, !CashDispenser.t D, !CardReader.t R, !Runtime.t T}.

Abbreviation World := (t B D R T).

(** [__init__] *)
Definition new (bank_service : B) (cash_dispenser : D) (card_reader : R)
    (h : Heap) (rt : T) : World :=
  Build _ _ _ _ bank_service cash_dispenser card_reader IDLE None None [] h rt [].

(** *** Field assignments *)

Definition set_state (st : ATMState) (w : World) : World :=
  Build _ _ _ _ (_bank_service w) (_cash_dispenser w) (_card_reader w) st
        (_current_card w) (_current_account w) (_transaction_history w)
        (heap w) (runtime w) (calls w).

Definition set_current_card (c : option Card.t) (w : World) : World :=
  Build _ _ _ _ (_bank_service w) (_cash_dispenser w) (_card_reader w) (_state w)
        c (_current_account w) (_transaction_history w)
        (heap w) (runtime w) (calls w).

Definition set_current_account (a : option ref) (w : World) : World :=
  Build _ _ _ _ (_bank_service w) (_cash_dispenser w) (_card_reader w) (_state w)
        (_current_card w) a (_transaction_history w)
        (heap w) (runtime w) (calls w).

Definition set_transaction_history (l : list Transaction.t) (w : World) : World :=
  Build _ _ _ _ (_bank_service w) (_cash_dispenser w) (_card_reader w) (_state w)
        (_current_card w) (_current_account w) l
        (heap w) (runtime w) (calls w).

(** [r.balance = b] on the shared object. *)
Definition set_balance (r : ref) (b : Z) (w : World) : World :=
  Build _ _ _ _ (_bank_service w) (_cash_dispenser w) (_card_reader w) (_state w)
        (_current_card w) (_current_account w) (_transaction_history w)
        (assign_balance r b (heap w)) (runtime w) (calls w).

(** *** Calls into the collaborators *)

Definition call_bank {A} (op : Py (B * Heap) A) (ev : Result A → Call.t)
  : Py World A :=
  λ w, let '(r, (b, h)) := op (_bank_service w, heap w) in
       (r, Build _ _ _ _ b (_cash_dispenser w) (_card_reader w) (_state w)
                 (_current_card w) (_current_account w) (_transaction_history w)
                 h (runtime w) (calls w ++ [ev r])).

Definition call_dispenser {A} (op : Py D A) (ev : Result A → Call.t)
  : Py World A :=
  λ w, let '(r, d) := op (_cash_dispenser w) in
       (r, Build _ _ _ _ (_bank_service w) d (_card_reader w) (_state w)
                 (_current_card w) (_current_account w) (_transaction_history w)
                 (heap w) (runtime w) (calls w ++ [ev r])).

Definition call_reader {A} (op : Py R A) (ev : Result A → Call.t)
  : Py World A :=
  λ w, let '(r, rd) := op (_card_reader w) in
       (r, Build _ _ _ _ (_bank_service w) (_cash_dispenser w) rd (_state w)
                 (_current_card w) (_current_account w) (_transaction_history w)
                 (heap w) (runtime w) (calls w ++ [ev r])).

(** Construction of a [Transaction] record. *)
Definition make_transaction (ty : Transaction.TransactionType) (amount : Z)
    (account_number : string) (balance_after : Z) : Py World Transaction.t :=
  λ w, let '(tx, rt) := Transaction_new ty amount account_number balance_after
                                        (runtime w) in
       (Return tx,
        Build _ _ _ _ (_bank_service w) (_cash_dispenser w) (_card_reader w) (_state w)
              (_current_card w) (_current_account w) (_transaction_history w)
              (heap w) rt (calls w)).

Local Open Scope py_scope.

(** *** Methods *)

Definition get_state : Py World ATMState := gets _state.

Definition _reset_session : Py World unit :=
  modify (set_state IDLE) ;;;
  modify (set_current_card None) ;;;
  modify (set_current_account None) ;;;
  modify (set_transaction_history []).

(** The controller after the four assignments of [_reset_session]. *)
Definition reset_state (w : World) : World :=
  set_transaction_history []
    (set_current_account None (set_current_card None (set_state IDLE w))).

Definition insert_card (card_number : string) : Py World bool :=
  st <- gets _state ;;
  if negb (bool_decide (st = IDLE))
  then raise (Exn ATMException "ATM is not ready to accept a card")
  else
    try_except
      (valid <- call_bank (BankService.validate_card card_number)
                          (Call.validate_card card_number) ;;
       if negb valid then raise (Exn InvalidCardException "Invalid card")
       else
         card <- call_reader (CardReader.read_card card_number)
                             (Call.read_card card_number) ;;
         modify (set_current_card (Some card)) ;;;
         modify (set_state CARD_INSERTED) ;;;
         ret true)
      (λ e, isinstance e Exception)
      (λ e, _reset_session ;;; raise e).

Definition enter_pin (pin : string) : Py World bool :=
  st <- gets _state ;;
  if negb (bool_decide (st = CARD_INSERTED))
  then raise (Exn ATMException "No card inserted or PIN already verified")
  else
    current_card <- gets _current_card ;;
    match current_card with
    | None => raise (Exn ATMException "No card information available")
    | Some card =>
        try_except
          (ok <- call_bank (BankService.verify_pin (Card.card_number card) pin)
                           (Call.verify_pin (Card.card_number card) pin) ;;
           if negb ok then raise (Exn InvalidPinException "Incorrect PIN")
           else
             modify (set_state PIN_VERIFIED) ;;;
             ret true)
          (λ e, isinstance e InvalidPinException)
          (λ e, _reset_session ;;; raise e)
    end.

Definition get_accounts : Py World (list ref) :=
  st <- gets _state ;;
  if negb (bool_decide (st = PIN_VERIFIED))
  then raise (Exn ATMException "PIN not verified")
  else
    current_card <- gets _current_card ;;
    match current_card with
    | None => raise (Exn ATMException "No card information available")
    | Some card =>
        call_bank (BankService.get_accounts (Card.card_number card))
                  (Call.get_accounts (Card.card_number card))
    end.

(** [[acc.account_number for acc in accounts]] *)
Definition account_numbers (h : Heap) (accounts : list ref) : list string :=
  (λ acc, Account.account_number (deref h acc)) <$> accounts.

Definition select_account (account_number : string) : Py World ref :=
  st <- gets _state ;;
  if negb (bool_decide (st = PIN_VERIFIED))
  then raise (Exn ATMException "PIN not verified")
  else
    current_card <- gets _current_card ;;
    match current_card with
    | None => raise (Exn ATMException "No card information available")
    | Some card =>
        found <- call_bank (BankService.get_account account_number)
                           (Call.get_account account_number) ;;
        match found with
        | None =>
            raise (Exn AccountNotFoundException
                       ("Account " +:+ account_number +:+ " not found"))
        | Some account =>
            accounts <- call_bank (BankService.get_accounts (Card.card_number card))
                                  (Call.get_accounts (Card.card_number card)) ;;
            h <- gets heap ;;
            if negb (bool_decide (account_number ∈ account_numbers h accounts))
            then raise (Exn AccountNotFoundException
                            "Account does not belong to this card")
            else
              modify (set_current_account (Some account)) ;;;
              modify (set_state ACCOUNT_SELECTED) ;;;
              ret account
        end
    end.

Definition get_balance : Py World Z :=
  st <- gets _state ;;
  if negb (bool_decide (st = ACCOUNT_SELECTED))
  then raise (Exn ATMException "No account selected")
  else
    current_account <- gets _current_account ;;
    match current_account with
    | None => raise (Exn ATMException "No account information available")
    | Some account =>
        (* Get fresh balance from bank service *)
        number <- gets (λ w, Account.account_number (deref (heap w) account)) ;;
        balance <- call_bank (BankService.get_balance number)
                             (Call.get_balance number) ;;
        modify (set_balance account balance) ;;;
        ret balance
    end.

Definition deposit (amount : Z) : Py World Transaction.t :=
  st <- gets _state ;;
  if negb (bool_decide (st = ACCOUNT_SELECTED))
  then raise (Exn ATMException "No account selected")
  else
    current_account <- gets _current_account ;;
    match current_account with
    | None => raise (Exn ATMException "No account information available")
    | Some account =>
        if amount <=? 0
        then raise (Exn ATMException "Deposit amount must be positive")
        else
          (* Process deposit through bank service *)
          number <- gets (λ w, Account.account_number (deref (heap w) account)) ;;
          new_balance <- call_bank (BankService.deposit number amount)
                                   (Call.deposit number amount) ;;
          (* Create transaction record *)
          number <- gets (λ w, Account.account_number (deref (heap w) account)) ;;
          transaction <- make_transaction Transaction.DEPOSIT amount number
                                          new_balance ;;
          modify (λ w, set_transaction_history
                         (_transaction_history w ++ [transaction]) w) ;;;
          modify (set_balance account new_balance) ;;;
          ret transaction
    end.

Definition withdraw (amount : Z) : Py World Transaction.t :=
  st <- gets _state ;;
  if negb (bool_decide (st = ACCOUNT_SELECTED))
  then raise (Exn ATMException "No account selected")
  else
    current_account <- gets _current_account ;;
    match current_account with
    | None => raise (Exn ATMException "No account information available")
    | Some account =>
        if amount <=? 0
        then raise (Exn ATMException "Withdrawal amount must be positive")
        else
          (* Check if ATM has sufficient cash *)
          enough <- call_dispenser (CashDispenser.has_sufficient_cash amount)
                                   (Call.has_sufficient_cash amount) ;;
          if negb enough
          then raise (Exn InsufficientCashException "ATM has insufficient cash")
          else
            (* Check account balance *)
            current_balance <- get_balance ;;
            if current_balance <? amount
            then raise (Exn InsufficientFundsException
                            "Insufficient funds in account")
            else
              (* Process withdrawal through bank service *)
              number <- gets (λ w, Account.account_number (deref (heap w) account)) ;;
              new_balance <- call_bank (BankService.withdraw number amount)
                                       (Call.withdraw number amount) ;;
              (* Dispense cash *)
              call_dispenser (CashDispenser.dispense_cash amount)
                             (Call.dispense_cash amount) ;;;
              (* Create transaction record *)
              number <- gets (λ w, Account.account_number (deref (heap w) account)) ;;
              transaction <- make_transaction Transaction.WITHDRAWAL amount number
                                              new_balance ;;
              modify (λ w, set_transaction_history
                             (_transaction_history w ++ [transaction]) w) ;;;
              modify (set_balance account new_balance) ;;;
              ret transaction
    end.

(** [self._transaction_history.copy()] *)
Definition get_transaction_history : Py World (list Transaction.t) :=
  gets _transaction_history.

Definition eject_card : Py World bool :=
  current_card <- gets _current_card ;;
  (match current_card with
   | Some _ => call_reader CardReader.eject_card Call.eject_card ;;; ret tt
   | None => ret tt
   end) ;;;
  _reset_session ;;;
  ret true.

End Controller.

End ATMController.

(** ** Test doubles ([src/mocks]) *)

Module MockBankService.

Record t : Type := Build {
  _cards : gmap string (string * bool);          (* card_number -> (pin, is_valid) *)
  _accounts : gmap string ref;                   (* account_number -> Account *)
  _card_accounts : gmap string (list string);    (* card_number -> account numbers *)
}.

(** The three accounts [__init__] creates; the constructor's defaults are
    [is_active=True] and a limit chosen by [__post_init__]. *)
Definition account_1001 : Account.t :=
  Account.Build "1001" Account.CHECKING 1000 "Primary Checking" true (Some 1000).
Definition account_1002 : Account.t :=
  Account.Build "1002" Account.SAVINGS 5000 "Primary Savings" true (Some 500).
Definition account_2001 : Account.t :=
  Account.Build "2001" Account.CHECKING 750 "Business Checking" true (Some 1000).

(** [__init__]: the account objects are created in the store. *)
Definition new (h : Heap) : t * Heap :=
  let '(r1, h) := alloc account_1001 h in
  let '(r2, h) := alloc account_1002 h in
  let '(r3, h) := alloc account_2001 h in
  (Build
     (<["3456789012345678" := ("9999", false)]>
        (<["2345678901234567" := ("5678", true)]>
           (<["1234567890123456" := ("1234", true)]> ∅)))
     (<["2001" := r3]> (<["1002" := r2]> (<["1001" := r1]> ∅)))
     (<["2345678901234567" := ["2001"]]>
        (<["1234567890123456" := ["1001"; "1002"]]> ∅)),
   h).

Definition validate_card (card_number : string) : Py (t * Heap) bool :=
  λ '(self, h),
    (Return match _cards self !! card_number with
            | Some (_, valid) => valid
            | None => false
            end, (self, h)).

Definition verify_pin (card_number pin : string) : Py (t * Heap) bool :=
  λ '(self, h),
    (Return match _cards self !! card_number with
            | Some (card_pin, valid) =>
                if negb valid then false else bool_decide (card_pin = pin)
            | None => false
            end, (self, h)).

Definition get_accounts (card_number : string) : Py (t * Heap) (list ref) :=
  λ '(self, h),
    let account_numbers := default [] (_card_accounts self !! card_number) in
    (Return (omap (λ account_num, _accounts self !! account_num) account_numbers),
     (self, h)).

Definition get_account (account_number : string) : Py (t * Heap) (option ref) :=
  λ '(self, h), (Return (_accounts self !! account_number), (self, h)).

Definition not_found (account_number : string) : exn :=
  Exn ValueError ("Account " +:+ account_number +:+ " not found").

Definition get_balance (account_number : string) : Py (t * Heap) Z :=
  λ '(self, h),
    match _accounts self !! account_number with
    | None => (Raise (not_found account_number), (self, h))
    | Some account => (Return (Account.balance (deref h account)), (self, h))
    end.

Definition deposit (account_number : string) (amount : Z) : Py (t * Heap) Z :=
  λ '(self, h),
    match _accounts self !! account_number with
    | None => (Raise (not_found account_number), (self, h))
    | Some account =>
        if amount <=? 0
        then (Raise (Exn ValueError "Deposit amount must be positive"), (self, h))
        else
          let h := assign_balance account (Account.balance (deref h account) + amount) h in
          (Return (Account.balance (deref h account)), (self, h))
    end.

Definition withdraw (account_number : string) (amount : Z) : Py (t * Heap) Z :=
  λ '(self, h),
    match _accounts self !! account_number with
    | None => (Raise (not_found account_number), (self, h))
    | Some account =>
        if amount <=? 0
        then (Raise (Exn ValueError "Withdrawal amount must be positive"), (self, h))
        else if Account.balance (deref h account) <? amount
        then (Raise (Exn InsufficientFundsException "Insufficient funds in account"),
              (self, h))
        else
          let h := assign_balance account (Account.balance (deref h account) - amount) h in
          (Return (Account.balance (deref h account)), (self, h))
    end.

Definition add_test_card (card_number pin : string) (account_numbers : list string)
    (self : t) : t :=
  Build (<[card_number := (pin, true)]> (_cards self))
        (_accounts self)
        (<[card_number := account_numbers]> (_card_accounts self)).

(** [self._accounts[account.account_number] = account] for an existing
    object [account]. *)
Definition add_test_account (account : ref) (h : Heap) (self : t) : t :=
  Build (_cards self)
        (<[Account.account_number (deref h account) := account]> (_accounts self))
        (_card_accounts self).

Global Instance bank_service : BankService.t t := {|
  BankService.validate_card := validate_card;
  BankService.verify_pin := verify_pin;
  BankService.get_accounts := get_accounts;
  BankService.get_account := get_account;
  BankService.get_balance := get_balance;
  BankService.deposit := deposit;
  BankService.withdraw := withdraw;
|}.

(** Every account object is filed under its own account number (the way
    [__init__] and [add_test_account] file it) and is an object of the
    store. *)
Definition keyed (self : t) (h : Heap) : Prop :=
  map_Forall (λ number account,
                Account.account_number <$> h !! account = Some number)
             (_accounts self).

End MockBankService.

Module MockCashDispenser.

Record t : Set := Build {
  _available_cash : Z;
  _total_dispensed : Z;
}.

(** [__init__(initial_cash=10000)] *)
Definition new (initial_cash : Z) : t := Build initial_cash 0.

Definition has_sufficient_cash (amount : Z) : Py t bool :=
  λ self, (Return (amount <=? _available_cash self), self).

Definition dispense_cash (amount : Z) : Py t bool :=
  λ self,
    if amount <=? 0
    then (Raise (Exn ValueError "Dispense amount must be positive"), self)
    else if negb (amount <=? _available_cash self)
    then (Raise (Exn InsufficientCashException
                     ("Insufficient cash in ATM. Available: $"
                      +:+ pretty (_available_cash self)
                      +:+ ", Requested: $" +:+ pretty amount)), self)
    else (Return true,
          Build (_available_cash self - amount) (_total_dispensed self + amount)).

Definition get_available_cash : Py t Z :=
  λ self, (Return (_available_cash self), self).

Definition refill_cash (amount : Z) : Py t bool :=
  λ self,
    if amount <=? 0
    then (Raise (Exn ValueError "Refill amount must be positive"), self)
    else (Return true, Build (_available_cash self + amount) (_total_dispensed self)).

Definition get_total_dispensed : Py t Z :=
  λ self, (Return (_total_dispensed self), self).

Definition reset (cash_amount : Z) (self : t) : t := Build cash_amount 0.

Global Instance cash_dispenser : CashDispenser.t t := {|
  CashDispenser.has_sufficient_cash := has_sufficient_cash;
  CashDispenser.dispense_cash := dispense_cash;
  CashDispenser.get_available_cash := get_available_cash;
  CashDispenser.refill_cash := refill_cash;
|}.

End MockCashDispenser.

Module MockCardReader.

(** One entry of [_card_info]. *)
Record info : Set := Info {
  holder_name : string;
  expiry_date : Z;
  card_type : string;
}.

(** [now] stands for the readings of [datetime.now()] the reader takes. *)
Record t : Type := Build {
  _card_inserted : bool;
  _current_card : option Card.t;
  _card_info : gmap string info;
  now : Z;
}.

Definition day : Z := 86400.

(** [__init__] at instant [now]. *)
Definition new (now : Z) : t :=
  Build false None
    (<["3456789012345678" := Info "Invalid User" (now - 30 * day) "DEBIT"]>
       (<["2345678901234567" := Info "Jane Smith" (now + 730 * day) "CREDIT"]>
          (<["1234567890123456" := Info "John Doe" (now + 365 * day) "DEBIT"]> ∅)))
    now.

Definition read_card (card_number : string) : Py t Card.t :=
  λ self,
    if bool_decide (card_number = "")
    then (Raise (Exn InvalidCardException "No card number provided"), self)
    else
      match _card_info self !! card_number with
      | None => (Raise (Exn InvalidCardException "Card not recognized"), self)
      | Some card_info =>
          match Card.new (now self) card_number (holder_name card_info)
                         (expiry_date card_info) (card_type card_info) true with
          | Raise e =>
              if isinstance e ValueError
              then (Raise (Exn InvalidCardException
                               ("Error reading card: " +:+ exn_msg e)), self)
              else (Raise e, self)
          | Return card =>
              if Card.is_expired (now self) card
              then (Raise (Exn InvalidCardException "Card is expired"), self)
              else (Return card,
                    Build true (Some card) (_card_info self) (now self))
          end
      end.

Definition eject_card : Py t bool :=
  λ self, (Return true, Build false None (_card_info self) (now self)).

Definition is_card_inserted : Py t bool :=
  λ self, (Return (_card_inserted self), self).

Definition add_test_card (card_number holder : string) (expiry : option Z)
    (type : string) (self : t) : t :=
  let expiry_date := default (now self + 365 * day) expiry in
  Build (_card_inserted self) (_current_card self)
        (<[card_number := Info holder expiry_date type]> (_card_info self))
        (now self).

Global Instance card_reader : CardReader.t t := {|
  CardReader.read_card := read_card;
  CardReader.eject_card := eject_card;
  CardReader.is_card_inserted := is_card_inserted;
|}.

End MockCardReader.

(** *** Further doubles used in the examples *)

(** A deterministic stand-in for the runtime oracle: a tick counter that
    numbers the identifiers and timestamps it hands out. *)
Module TickRuntime.

Definition uuid4 (n : nat) : string * nat := ("uuid-" +:+ pretty n, S n).
Definition datetime_now (n : nat) : Z * nat := (Z.of_nat n, S n).

Global Instance runtime : Runtime.t nat := {|
  Runtime.uuid4 := uuid4;
  Runtime.datetime_now := datetime_now;
|}.

End TickRuntime.

(** A dispenser whose inventory check passes while the mechanism cannot
    deliver: [has_sufficient_cash] compares with the counted inventory, and
    [dispense_cash] reports the failure with the exception the interface
    documents for it. *)
Module JammedCashDispenser.

Record t : Set := Build { _available_cash : Z }.

Definition has_sufficient_cash (amount : Z) : Py t bool :=
  λ self, (Return (amount <=? _available_cash self), self).

Definition dispense_cash (amount : Z) : Py t bool :=
  λ self, (Raise (Exn InsufficientCashException "Unable to dispense cash"), self).

Definition get_available_cash : Py t Z :=
  λ self, (Return (_available_cash self), self).

Definition refill_cash (amount : Z) : Py t bool :=
  λ self, (Return true, Build (_available_cash self + amount)).

Global Instance cash_dispenser : CashDispenser.t t := {|
  CashDispenser.has_sufficient_cash := has_sufficient_cash;
  CashDispenser.dispense_cash := dispense_cash;
  CashDispenser.get_available_cash := get_available_cash;
  CashDispenser.refill_cash := refill_cash;
|}.

End JammedCashDispenser.

(** A bank that cannot be reached: every method raises
    [ATMMaintenanceException]. *)
Module OfflineBankService.

Definition unreachable {A} : Py (unit * Heap) A :=
  raise (Exn ATMMaintenanceException "Bank is unreachable").

Global Instance bank_service : BankService.t unit := {|
  BankService.validate_card _ := unreachable;
  BankService.verify_pin _ _ := unreachable;
  BankService.get_accounts _ := unreachable;
  BankService.get_account _ := unreachable;
  BankService.get_balance _ := unreachable;
  BankService.deposit _ _ := unreachable;
  BankService.withdraw _ _ := unreachable;
|}.

End OfflineBankService.

(** ** Operations as data

    The customer intents of the controller, for statements that range over
    all of them. *)

Module Op.

Import ATMController.

Inductive t : Type :=
  | insert_card (card_number : string)
  | enter_pin (pin : string)
  | get_accounts
  | select_account (account_number : string)
  | get_balance
  | deposit (amount : Z)
  | withdraw (amount : Z)
  | eject_card.

(** The "Current state" column of the transition table: the one state an
    operation is permitted from, [None] for the row marked "any". *)
Definition table_state (o : t) : option ATMState :=
  match o with
  | insert_card _ => Some IDLE
  | enter_pin _ => Some CARD_INSERTED
  | get_accounts | select_account _ => Some PIN_VERIFIED
  | get_balance | deposit _ | withdraw _ => Some ACCOUNT_SELECTED
  | eject_card => None
  end.

(** The message of the [ATMException] each method raises at its state
    check. *)
Definition gate_message (o : t) : string :=
  match o with
  | insert_card _ => "ATM is not ready to accept a card"
  | enter_pin _ => "No card inserted or PIN already verified"
  | get_accounts | select_account _ => "PIN not verified"
  | get_balance | deposit _ | withdraw _ => "No account selected"
  | eject_card => ""
  end.

(** What is left of a computation once its return value is dropped: the
    exception raised, if any, and the state reached. *)
Definition outcome {S A} (m : Py S A) : S → option exn * S :=
  λ s, match m s with
       | (Return _, s') => (None, s')
       | (Raise e, s') => (Some e, s')
       end.

Section Invoke.

Context {B D R T : Type}.
Context `{!BankService.t B, !CashDispenser.t D, !CardReader.t R, !Runtime.t T}.

Definition invoke (o : t) : ATMController.t B D R T → option exn * ATMController.t B D R T :=
  match o with
  | insert_card card_number => outcome (ATMController.insert_card card_number)
  | enter_pin pin => outcome (ATMController.enter_pin pin)
  | get_accounts => outcome ATMController.get_accounts
  | select_account account_number => outcome (ATMController.select_account account_number)
  | get_balance => outcome ATMController.get_balance
  | deposit amount => outcome (ATMController.deposit amount)
  | withdraw amount => outcome (ATMController.withdraw amount)
  | eject_card => outcome ATMController.eject_card
  end.

End Invoke.


(** The operations of a list invoked one after the other, whatever their
    outcomes. *)
Definition invoke_all {B D R T : Type}
    `{!BankService.t B, !CashDispenser.t D, !CardReader.t R, !Runtime.t T}
    (ops : list t) (w : ATMController.t B D R T) : ATMController.t B D R T :=
  foldl (λ w o, (invoke o w).2) w ops.

End Op.

(** The next state of the linear progression
    [IDLE → CARD_INSERTED → PIN_VERIFIED → ACCOUNT_SELECTED]. *)
Definition successor (st : ATMState) : option ATMState :=
  match st with
  | IDLE => Some CARD_INSERTED
  | CARD_INSERTED => Some PIN_VERIFIED
  | PIN_VERIFIED => Some ACCOUNT_SELECTED
  | ACCOUNT_SELECTED => None
  end.

(** The shape of the session fields in each state: a card is held exactly
    outside [IDLE], an account exactly in [ACCOUNT_SELECTED], and the log is
    empty before an account has been selected. *)
Definition consistent {B D R T} (w : ATMController.t B D R T) : bool :=
  match ATMController._state w with
  | IDLE =>
      bool_decide (ATMController._current_card w = None)
      && bool_decide (ATMController._current_account w = None)
      && bool_decide (ATMController._transaction_history w = [])
  | CARD_INSERTED | PIN_VERIFIED =>
      bool_decide (is_Some (ATMController._current_card w))
      && bool_decide (ATMController._current_account w = None)
      && bool_decide (ATMController._transaction_history w = [])
  | ACCOUNT_SELECTED =>
      bool_decide (is_Some (ATMController._current_card w))
      && bool_decide (is_Some (ATMController._current_account w))
  end.

(** ** Sequences of money movements *)

Module Tx.

Inductive t : Set := deposit (amount : Z) | withdraw (amount : Z).

(** One step of a run: the request, what the controller answered, and the
    collaborator invocations made while serving it. *)
Record step : Type := Step {
  request : t;
  answer : Result Transaction.t;
  invoked : list Call.t;
}.

(** Whether the controller returned a transaction. *)
Definition succeeded (s : step) : bool :=
  match answer s with Return _ => true | Raise _ => false end.

(** The transactions of the steps that succeeded, in order. *)
Definition successes (steps : list step) : list Transaction.t :=
  omap (λ s, match answer s with Return tx => Some tx | Raise _ => None end) steps.

(** The new balance the ledger reported in answer to the credit or debit
    of a request, if this call is that answer. *)
Definition reported (o : t) (c : Call.t) : option Z :=
  match o, c with
  | deposit _, Call.deposit _ _ (Return b) => Some b
  | withdraw _, Call.withdraw _ _ (Return b) => Some b
  | _, _ => None
  end.

Definition type_of (o : t) : Transaction.TransactionType :=
  match o with
  | deposit _ => Transaction.DEPOSIT
  | withdraw _ => Transaction.WITHDRAWAL
  end.

Definition amount_of (o : t) : Z :=
  match o with deposit a | withdraw a => a end.

Section Run.

Context {B D R T : Type}.
Context `{!BankService.t B, !CashDispenser.t D, !CardReader.t R, !Runtime.t T}.

Definition perform (o : t) : Py (ATMController.t B D R T) Transaction.t :=
  match o with
  | deposit amount => ATMController.deposit amount
  | withdraw amount => ATMController.withdraw amount
  end.

(** The requests are served one after the other, failures included. *)
Fixpoint run (ops : list t) (w : ATMController.t B D R T)
  : list step * ATMController.t B D R T :=
  match ops with
  | [] => ([], w)
  | o :: ops =>
      let '(r, w1) := perform o w in
      let made := drop (length (ATMController.calls w)) (ATMController.calls w1) in
      let '(steps, w2) := run ops w1 in
      (Step o r made :: steps, w2)
  end.

End Run.

End Tx.

(** ** Example sessions on the test doubles *)

Module Examples.

Import ATMController.
Local Open Scope py_scope.

Abbreviation MockWorld :=
  (ATMController.t MockBankService.t MockCashDispenser.t MockCardReader.t nat).

(** The fixture of the test suite: fresh mocks, the dispenser loaded with
    [cash] units. *)
Definition fixture (cash : Z) : MockWorld :=
  let '(bank, h) := MockBankService.new ∅ in
  ATMController.new bank (MockCashDispenser.new cash) (MockCardReader.new 0) h 0%nat.

(** State reached by running [m], whatever its outcome. *)
Definition after {S A} (m : Py S A) (s : S) : S := snd (m s).

Definition card_inserted : MockWorld :=
  after (insert_card "1234567890123456") (fixture 5000).

Definition pin_verified : MockWorld :=
  after (enter_pin "1234") card_inserted.

(** Card "1234567890123456", PIN "1234", account "1001" selected. *)
Definition selected_1001 (cash : Z) : MockWorld :=
  after (insert_card "1234567890123456" ;;; enter_pin "1234" ;;;
         select_account "1001") (fixture cash).

(** The same session on an ATM whose dispenser is jammed. *)
Definition jammed_selected_1001
  : ATMController.t MockBankService.t JammedCashDispenser.t MockCardReader.t nat :=
  let '(bank, h) := MockBankService.new ∅ in
  after (insert_card "1234567890123456" ;;; enter_pin "1234" ;;;
         select_account "1001")
        (ATMController.new bank (JammedCashDispenser.Build 5000)
                           (MockCardReader.new 0) h 0%nat).

(** Account "1001" selected, after which the bank's entry for "1001" is
    replaced ([add_test_account]) by a new object with balance 50: the
    controller still holds the object it selected, with balance 1000. *)
Definition replaced_1001 : MockWorld :=
  let w := selected_1001 5000 in
  let '(account, h) :=
    alloc (Account.Build "1001" Account.CHECKING 50 "Primary Checking" true (Some 1000))
          (heap w) in
  ATMController.Build _ _ _ _
    (MockBankService.add_test_account account h (_bank_service w))
    (_cash_dispenser w) (_card_reader w) (_state w) (_current_card w)
    (_current_account w) (_transaction_history w) h (runtime w) (calls w).

(** An active checking account with a daily limit of 0. *)
Definition zero_limit_account : Account.t :=
  Account.Build "1001" Account.CHECKING 100 "Primary Checking" true (Some 0).

(** A card is inserted when the bank goes offline. *)
Definition offline_card_inserted
  : ATMController.t unit MockCashDispenser.t MockCardReader.t nat :=
  ATMController.Build _ _ _ _
    tt (_cash_dispenser card_inserted) (_card_reader card_inserted)
    (_state card_inserted) (_current_card card_inserted)
    (_current_account card_inserted) (_transaction_history card_inserted)
    (heap card_inserted) (runtime card_inserted) (calls card_inserted).

(** The four invocations of a successful withdrawal of 200 from account
    "1001". *)
Definition withdrawal_200_calls : list Call.t :=
  [Call.has_sufficient_cash 200 (Return true);
   Call.get_balance "1001" (Return 1000);
   Call.withdraw "1001" 200 (Return 800);
   Call.dispense_cash 200 (Return true)].

(** The bank and the store of the fixture. *)
Definition fixture_bank : MockBankService.t := (MockBankService.new ∅).1.
Definition fixture_heap : Heap := (MockBankService.new ∅).2.

End Examples.

(** * Properties *)

(** ** The account model *)

Section AccountProperties.

Import Account.

(** A limit the truth test of [can_withdraw] sees is enforced. *)
Lemma can_withdraw_limit (a : Account.t) (amount l : Z) :
  daily_withdrawal_limit a = Some l → l ≠ 0 →
  can_withdraw a amount = true → amount ≤ l.
Proof.
  intros Hl Hnz. unfold can_withdraw, truthy. rewrite Hl.
  destruct (is_active a); simpl; [|done].
  destruct (amount <=? 0); [done|].
  destruct (Z.eqb_spec l 0); [done|]. simpl.
  destruct (Z.ltb_spec l amount); [done|]. lia.
Qed.

(** Away from a limit of 0, [can_withdraw] is the invariant the data model
    states. *)
Lemma can_withdraw_iff (a : Account.t) (amount : Z) :
  daily_withdrawal_limit a ≠ Some 0 →
  can_withdraw a amount = true ↔ withdrawal_allowed a amount.
Proof.
  intros Hnz. unfold can_withdraw, withdrawal_allowed, within_daily_limit, truthy.
  destruct (is_active a); simpl; [|intuition congruence].
  destruct (Z.leb_spec amount 0); [intuition (congruence || lia)|].
  destruct (daily_withdrawal_limit a) as [l|]; simpl.
  - destruct (Z.eqb_spec l 0); [congruence|]. simpl.
    destruct (Z.ltb_spec l amount); [intuition (congruence || lia)|].
    case_decide; [intuition (congruence || lia)|].
    rewrite Z.leb_le. intuition lia.
  - case_decide; [intuition congruence|].
    rewrite Z.leb_le. intuition lia.
Qed.

(** C8, at a limit of 0: the account built by
    [Account("1001", CHECKING, 100, "Primary Checking", True, 0)] answers
    [can_withdraw(50)] with [True], although 50 exceeds its daily limit of
    0 -- the truth test [self.daily_withdrawal_limit and …] takes the limit
    0 for an absent one, where [__post_init__] keeps it as a limit. *)
Theorem can_withdraw_zero_limit :
  Account.new "1001" CHECKING 100 "Primary Checking" true (Some 0)
    = Return Examples.zero_limit_account
  ∧ can_withdraw Examples.zero_limit_account 50 = true
  ∧ ¬ within_daily_limit Examples.zero_limit_account 50
  ∧ ¬ withdrawal_allowed Examples.zero_limit_account 50.
Proof.
  split; [reflexivity|]. split; [reflexivity|].
  unfold withdrawal_allowed, within_daily_limit. simpl.
  split; [lia|]. intros (_ & _ & H & _). lia.
Qed.

End AccountProperties.

(** ** The controller, for arbitrary collaborators *)

Section ControllerProperties.

Import ATMController.

Context {B D R T : Type}.
Context `{!BankService.t B, !CashDispenser.t D, !CardReader.t R, !Runtime.t T}.

Abbreviation World := (ATMController.t B D R T).

Implicit Types (w : World) (amount : Z) (account : ref) (card : Card.t).

Ltac py_unfold :=
  unfold Op.invoke, Op.outcome, Tx.perform,
    insert_card, enter_pin, get_accounts, select_account,
    deposit, withdraw, get_balance, eject_card, get_transaction_history, get_state,
    _reset_session, make_transaction, Transaction_new,
    call_bank, call_dispenser, call_reader,
    try_except, bind, gets, get, modify, raise, ret in *.

(** Case analysis on whatever the computation in the goal inspects next. *)
Ltac py_cases := repeat (simpl in *; simplify_eq; try case_match).

(** Opens up a world so that the field reads of a method body compute. *)
Ltac py_world w :=
  destruct w as [? ? ? ? ? ? ? ? ? ?]; simpl in *; simplify_eq; py_unfold; simpl.

(** C3 (state gating).  Each of [insert_card], [enter_pin], [get_accounts],
    [select_account], [get_balance], [deposit] and [withdraw], invoked in a
    state other than the one the transition table permits it from, raises
    the base [ATMException] (the class the code uses for a state violation)
    with the message of its state check, and leaves the controller and all
    it can reach exactly as they were: same state, same card, same account,
    same log, and no collaborator has been invoked. *)
Theorem state_gating (o : Op.t) (st : ATMState) w :
  Op.table_state o = Some st →
  _state w ≠ st →
  Op.invoke o w = (Some (Exn ATMException (Op.gate_message o)), w).
Proof.
  intros Ht Hs.
  destruct o; simpl in Ht; simplify_eq; py_unfold; simpl;
    rewrite bool_decide_eq_false_2 by done; reflexivity.
Qed.

(** C9 (amounts that are not positive).  With an account selected, [deposit]
    and [withdraw] of an amount [≤ 0] raise the base [ATMException] (the
    class the code uses for an invalid amount) with their "must be positive"
    message; the controller and all it can reach are exactly as before, so
    no collaborator has been invoked, nothing was logged and the cached
    account was not written. *)
Theorem nonpositive_amount_rejected w amount :
  consistent w = true →
  _state w = ACCOUNT_SELECTED →
  amount ≤ 0 →
  deposit amount w = (Raise (Exn ATMException "Deposit amount must be positive"), w)
  ∧ withdraw amount w
    = (Raise (Exn ATMException "Withdrawal amount must be positive"), w).
Proof.
  intros Hc Hs Ha. unfold consistent in Hc. rewrite Hs in Hc.
  apply andb_prop in Hc as [_ Hacc]. apply bool_decide_eq_true in Hacc as [account Hacc].
  py_world w. destruct (Z.leb_spec amount 0); [done|lia].
Qed.

Lemma session_reset_state w : session (reset_state w) = (IDLE, None, None, []).
Proof. reflexivity. Qed.

(** Without a card held, [eject_card] does not go to the reader. *)
Lemma eject_card_no_card w :
  _current_card w = None → eject_card w = (Return true, reset_state w).
Proof. intros Hc. by py_world w. Qed.

(** C7 (eject).  Provided the reader's own [eject_card], which is invoked
    only when a card is held, does not raise there (its contract: it always
    succeeds), the controller's [eject_card] returns [True] from any state
    and leaves the session [IDLE] with no card, no account and an empty log;
    a second [eject_card] returns [True] again, invokes no collaborator and
    changes nothing. *)
Theorem eject_card_idempotent w :
  (is_Some (_current_card w) →
   ∃ ok rd, CardReader.eject_card (_card_reader w) = (Return ok, rd)) →
  ∃ w', eject_card w = (Return true, w')
        ∧ session w' = (IDLE, None, None, [])
        ∧ eject_card w' = (Return true, w').
Proof.
  intros Hrd. destruct (_current_card w) as [card|] eqn:Hc.
  - destruct Hrd as (ok & rd & Hrd); [by eexists|].
    py_world w. rewrite Hrd. simpl.
    eexists. split; [reflexivity|]. split; reflexivity.
  - exists (reset_state w). rewrite eject_card_no_card by done.
    split; [done|]. split; [done|]. by rewrite eject_card_no_card.
Qed.

(** C4 (PIN verification).  In [CARD_INSERTED] with a card held: when the
    bank answers [verify_pin] with [False], [enter_pin] raises
    [InvalidPinException] and the session is reset -- state [IDLE], no card
    (and no account, empty log); when the bank answers [True], [enter_pin]
    returns [True], the state is [PIN_VERIFIED] and the same card is held
    (account and log untouched). *)
Theorem enter_pin_outcomes w card (pin : string) (ok : bool) (b' : B) (h' : Heap) :
  _state w = CARD_INSERTED →
  _current_card w = Some card →
  BankService.verify_pin (Card.card_number card) pin (_bank_service w, heap w)
    = (Return ok, (b', h')) →
  ∃ w',
    (if ok
     then enter_pin pin w = (Return true, w')
          ∧ _state w' = PIN_VERIFIED
          ∧ _current_card w' = Some card
          ∧ _current_account w' = _current_account w
          ∧ _transaction_history w' = _transaction_history w
     else enter_pin pin w = (Raise (Exn InvalidPinException "Incorrect PIN"), w')
          ∧ session w' = (IDLE, None, None, []))
    ∧ _bank_service w' = b' ∧ heap w' = h'
    ∧ calls w' = calls w ++ [Call.verify_pin (Card.card_number card) pin (Return ok)].
Proof.
  intros Hs Hc Hpin. py_world w. rewrite Hpin.
  destruct ok; simpl; eexists; (split; [repeat split; reflexivity|done]).
Qed.

(** What [consistent] gives in each state. *)
Lemma consistent_pin_verified w :
  consistent w = true → _state w = PIN_VERIFIED →
  _current_account w = None ∧ _transaction_history w = [].
Proof.
  unfold consistent. intros Hc Hs. rewrite Hs in Hc.
  apply andb_prop in Hc as [Hc Hlog]. apply andb_prop in Hc as [_ Hacc].
  by apply bool_decide_eq_true in Hacc, Hlog.
Qed.

Lemma consistent_account_selected w :
  consistent w = true → _state w = ACCOUNT_SELECTED →
  ∃ account, _current_account w = Some account.
Proof.
  unfold consistent. intros Hc Hs. rewrite Hs in Hc.
  apply andb_prop in Hc as [_ Hacc]. by apply bool_decide_eq_true in Hacc.
Qed.

(** C5 (ownership).  In [PIN_VERIFIED], for an account number the bank
    knows ([get_account] returns an account), the decision is the
    membership of that number among the account numbers of the list
    [get_accounts] returns for the held card, fetched after [get_account]:
    outside the list, [select_account] raises [AccountNotFoundException],
    the state stays [PIN_VERIFIED] and no account is held; inside, it
    returns the account found, holds it and the state is
    [ACCOUNT_SELECTED]. *)
Theorem select_account_ownership w card (account_number : string) account
    (accounts : list ref) (b1 b2 : B) (h1 h2 : Heap) :
  consistent w = true →
  _state w = PIN_VERIFIED →
  _current_card w = Some card →
  BankService.get_account account_number (_bank_service w, heap w)
    = (Return (Some account), (b1, h1)) →
  BankService.get_accounts (Card.card_number card) (b1, h1)
    = (Return accounts, (b2, h2)) →
  (account_number ∉ account_numbers h2 accounts →
   ∃ w', select_account account_number w
         = (Raise (Exn AccountNotFoundException "Account does not belong to this card"),
            w')
         ∧ session w' = (PIN_VERIFIED, Some card, None, []))
  ∧ (account_number ∈ account_numbers h2 accounts →
     ∃ w', select_account account_number w = (Return account, w')
           ∧ session w' = (ACCOUNT_SELECTED, Some card, Some account, [])).
Proof.
  intros Hc Hs Hcard Hget Hlist.
  destruct (consistent_pin_verified w Hc Hs) as [Hacc Hlog].
  py_world w. rewrite Hget. simpl. rewrite Hlist. simpl.
  split; intros Hin.
  - rewrite bool_decide_eq_false_2 by done. simpl. by eexists.
  - rewrite bool_decide_eq_true_2 by done. simpl. by eexists.
Qed.

(** Whatever the collaborators answer, a [withdraw] that passes its local
    checks invokes an initial part of [withdraw_order], in that order. *)
Lemma withdraw_calls_in_order w amount account (r : Result Transaction.t) w' :
  _state w = ACCOUNT_SELECTED →
  _current_account w = Some account →
  0 < amount →
  withdraw amount w = (r, w') →
  ∃ made, calls w' = calls w ++ made
          ∧ (Call.method_of <$> made) `prefix_of` Call.withdraw_order.
Proof.
  intros Hs Hacc Ha Hw. py_world w.
  destruct (Z.leb_spec amount 0); [lia|].
  py_cases; rewrite <- ?app_assoc; simpl;
    (eexists; split; [reflexivity|]); simpl; unfold Call.withdraw_order;
    by eexists.
Qed.

(** C1 (withdrawal ordering).  With an account selected and a positive
    amount, once the dispenser has answered [has_sufficient_cash]:
    - on [False], [withdraw] raises [InsufficientCashException]; the only
      collaborator invocation is that cash check, so the bank and the
      account objects are exactly as before and the session is unchanged;
    - on [True], when the balance then read from the ledger is below the
      amount, [withdraw] raises [InsufficientFundsException]; the
      invocations are the cash check and the balance read, in this order:
      no debit, no dispensing, and the session is unchanged;
    - in every case the invocations made are an initial part of: cash
      check, balance read, debit, dispensing. *)
Theorem withdraw_check_order w amount (enough : bool) (d1 : D) :
  consistent w = true →
  _state w = ACCOUNT_SELECTED →
  0 < amount →
  CashDispenser.has_sufficient_cash amount (_cash_dispenser w) = (Return enough, d1) →
  (enough = false →
   ∃ w', withdraw amount w
         = (Raise (Exn InsufficientCashException "ATM has insufficient cash"), w')
         ∧ calls w' = calls w ++ [Call.has_sufficient_cash amount (Return false)]
         ∧ _bank_service w' = _bank_service w
         ∧ heap w' = heap w
         ∧ session w' = session w)
  ∧ (enough = true →
     ∀ account (balance : Z) (b1 : B) (h1 : Heap),
       _current_account w = Some account →
       BankService.get_balance (Account.account_number (deref (heap w) account))
                               (_bank_service w, heap w)
         = (Return balance, (b1, h1)) →
       balance < amount →
       ∃ w', withdraw amount w
             = (Raise (Exn InsufficientFundsException "Insufficient funds in account"),
                w')
             ∧ calls w'
               = calls w
                 ++ [Call.has_sufficient_cash amount (Return true);
                     Call.get_balance (Account.account_number (deref (heap w) account))
                                      (Return balance)]
             ∧ _bank_service w' = b1
             ∧ _cash_dispenser w' = d1
             ∧ session w' = session w)
  ∧ (∀ (r : Result Transaction.t) w',
       withdraw amount w = (r, w') →
       ∃ made, calls w' = calls w ++ made
               ∧ (Call.method_of <$> made) `prefix_of` Call.withdraw_order).
Proof.
  intros Hc Hs Ha Hcash.
  destruct (consistent_account_selected w Hc Hs) as [account0 Hacc].
  split; [|split].
  - intros ->. py_world w. destruct (Z.leb_spec amount 0); [lia|]. simpl.
    rewrite Hcash. simpl. by eexists.
  - intros -> account balance b1 h1 Hacc' Hbal Hlt. py_world w.
    destruct (Z.leb_spec amount 0); [lia|]. simpl.
    rewrite Hcash. simpl. rewrite Hbal. simpl.
    destruct (Z.ltb_spec balance amount); [|lia].
    rewrite <- app_assoc. by eexists.
  - intros r w' Hw. by eapply withdraw_calls_in_order.
Qed.

(** A read of the balance through a reference sees the last assignment
    made through it. *)
Lemma deref_assign_balance (h : Heap) (r : ref) (b : Z) :
  deref (assign_balance r b h) r = Account.set_balance b (deref h r).
Proof. unfold deref, assign_balance. by rewrite lookup_total_insert_eq. Qed.

Lemma balance_assign_balance (h : Heap) (r : ref) (b : Z) :
  Account.balance (deref (assign_balance r b h) r) = b.
Proof. by rewrite deref_assign_balance. Qed.

Lemma account_number_assign_balance (h : Heap) (r : ref) (b : Z) :
  Account.account_number (deref (assign_balance r b h) r)
  = Account.account_number (deref h r).
Proof. by rewrite deref_assign_balance. Qed.

(** C10 (a failing withdrawal refreshes the cache).  With an account
    selected and a positive amount, when the dispenser has enough cash and
    the balance read from the ledger is below the amount, [withdraw] raises
    [InsufficientFundsException] after [get_balance] has assigned the value
    read to the [balance] of the held account object; the assignment is not
    undone, so that balance is the value read when the call has failed. *)
Theorem insufficient_funds_overwrites_cache w amount account (balance : Z)
    (d1 : D) (b1 : B) (h1 : Heap) :
  _state w = ACCOUNT_SELECTED →
  _current_account w = Some account →
  0 < amount →
  CashDispenser.has_sufficient_cash amount (_cash_dispenser w) = (Return true, d1) →
  BankService.get_balance (Account.account_number (deref (heap w) account))
                          (_bank_service w, heap w)
    = (Return balance, (b1, h1)) →
  balance < amount →
  ∃ w', withdraw amount w
        = (Raise (Exn InsufficientFundsException "Insufficient funds in account"), w')
        ∧ _current_account w' = Some account
        ∧ heap w' = assign_balance account balance h1
        ∧ Account.balance (deref (heap w') account) = balance.
Proof.
  intros Hs Hacc Ha Hcash Hbal Hlt. py_world w.
  destruct (Z.leb_spec amount 0); [lia|]. simpl.
  rewrite Hcash. simpl. rewrite Hbal. simpl.
  destruct (Z.ltb_spec balance amount); [|lia].
  eexists. split; [reflexivity|]. simpl.
  split; [done|]. split; [done|]. apply balance_assign_balance.
Qed.

(** C2, as the code has it (dispensing fails after the debit).  With an
    account selected and a positive amount, when the cash check passes, the
    balance read covers the amount, the bank's [withdraw] returns a new
    balance and [dispense_cash] then raises [e], the controller's [withdraw]
    raises that same [e], unchanged: it has no exception of its own for
    this case and does not catch the dispenser's.  The debit stands -- the
    bank and the account objects are as the bank's [withdraw] left them, and
    the last invocation is the failed [dispense_cash] -- and the session
    fields are untouched: no reset and no log entry. *)
Theorem dispense_failure_propagates w amount account (balance new_balance : Z)
    (e : exn) (d1 d2 : D) (b1 b2 : B) (h1 h2 : Heap) :
  _state w = ACCOUNT_SELECTED →
  _current_account w = Some account →
  0 < amount →
  CashDispenser.has_sufficient_cash amount (_cash_dispenser w) = (Return true, d1) →
  BankService.get_balance (Account.account_number (deref (heap w) account))
                          (_bank_service w, heap w)
    = (Return balance, (b1, h1)) →
  amount ≤ balance →
  BankService.withdraw (Account.account_number (deref h1 account)) amount
                       (b1, assign_balance account balance h1)
    = (Return new_balance, (b2, h2)) →
  CashDispenser.dispense_cash amount d1 = (Raise e, d2) →
  ∃ w', withdraw amount w = (Raise e, w')
        ∧ session w' = session w
        ∧ _bank_service w' = b2
        ∧ heap w' = h2
        ∧ calls w'
          = calls w
            ++ [Call.has_sufficient_cash amount (Return true);
                Call.get_balance (Account.account_number (deref (heap w) account))
                                 (Return balance);
                Call.withdraw (Account.account_number (deref h1 account)) amount
                              (Return new_balance);
                Call.dispense_cash amount (Raise e)].
Proof.
  intros Hs Hacc Ha Hcash Hbal Hle Hdebit Hdisp. py_world w.
  destruct (Z.leb_spec amount 0); [lia|]. simpl.
  rewrite Hcash. simpl. rewrite Hbal. simpl.
  destruct (Z.ltb_spec balance amount); [lia|]. simpl.
  rewrite account_number_assign_balance, Hdebit. simpl. rewrite Hdisp. simpl.
  rewrite <- !app_assoc. by eexists.
Qed.

(** One money movement: a success appends the transaction returned, whose
    [balance_after] is the one new balance the ledger reported while the
    request was served; a failure leaves the log as it was. *)
Lemma perform_log (o : Tx.t) w (r : Result Transaction.t) w' :
  Tx.perform o w = (r, w') →
  ∃ made,
    calls w' = calls w ++ made
    ∧ match r with
      | Return tx =>
          _transaction_history w' = _transaction_history w ++ [tx]
          ∧ omap (Tx.reported o) made = [Transaction.balance_after tx]
          ∧ Transaction.transaction_type tx = Tx.type_of o
          ∧ Transaction.amount tx = Tx.amount_of o
      | Raise _ => _transaction_history w' = _transaction_history w
      end.
Proof.
  intros Hp. destruct o; py_world w;
    py_cases; rewrite <- ?app_assoc; simpl;
    (eexists; split; [first [reflexivity | symmetry; apply app_nil_r]|]); by simpl.
Qed.

(** The successes of a run are as many as its steps that succeeded. *)
Lemma successes_length (steps : list Tx.step) :
  length (Tx.successes steps) = length (filter (λ s, Tx.succeeded s = true) steps).
Proof.
  unfold Tx.successes, Tx.succeeded.
  induction steps as [|[o [tx|e] made] steps IH]; [done| |].
  - rewrite filter_cons_True by done. simpl. f_equal. exact IH.
  - rewrite filter_cons_False by done. exact IH.
Qed.

(** C6 (transaction log fidelity).  Serving any sequence of [deposit] and
    [withdraw] requests, the log at the end is the log at the start followed
    by the transactions of the requests that succeeded, in the order they
    were served: one entry per success -- N new entries for N successes --,
    none for a failure, and the entries already there are the same as
    before.  The [balance_after] of each of these transactions is the new
    balance the bank returned from the [deposit] or [withdraw] invoked for
    that request. *)
Theorem transaction_log_fidelity (ops : list Tx.t) w :
  Tx.request <$> (Tx.run ops w).1 = ops
  ∧ _transaction_history (Tx.run ops w).2
    = _transaction_history w ++ Tx.successes (Tx.run ops w).1
  ∧ length (_transaction_history (Tx.run ops w).2)
    = (length (_transaction_history w)
       + length (filter (λ s, Tx.succeeded s = true) (Tx.run ops w).1))%nat
  ∧ Forall (λ s, ∀ tx, Tx.answer s = Return tx →
                   omap (Tx.reported (Tx.request s)) (Tx.invoked s)
                   = [Transaction.balance_after tx]
                   ∧ Transaction.transaction_type tx = Tx.type_of (Tx.request s)
                   ∧ Transaction.amount tx = Tx.amount_of (Tx.request s))
           (Tx.run ops w).1.
Proof.
  cut (Tx.request <$> (Tx.run ops w).1 = ops
       ∧ _transaction_history (Tx.run ops w).2
         = _transaction_history w ++ Tx.successes (Tx.run ops w).1
       ∧ Forall (λ s, ∀ tx, Tx.answer s = Return tx →
                   omap (Tx.reported (Tx.request s)) (Tx.invoked s)
                   = [Transaction.balance_after tx]
                   ∧ Transaction.transaction_type tx = Tx.type_of (Tx.request s)
                   ∧ Transaction.amount tx = Tx.amount_of (Tx.request s))
           (Tx.run ops w).1).
  { intros (Hreq & Hlog & Hbal). repeat split; try done.
    by rewrite Hlog, length_app, successes_length. }
  revert w. induction ops as [|o ops IH]; intros w; simpl.
  - split; [done|]. split; [by rewrite app_nil_r|]. constructor.
  - destruct (Tx.perform o w) as [r w1] eqn:Hp.
    destruct (perform_log o w r w1 Hp) as (made & Hcalls & Hr).
    specialize (IH w1). destruct (Tx.run ops w1) as [steps w2]. simpl in *.
    destruct IH as (IHreq & IHlog & IHbal).
    rewrite Hcalls, drop_app_length.
    split; [by f_equal|]. split.
    + rewrite IHlog. destruct r as [tx|e].
      * destruct Hr as [-> _]. by rewrite <- app_assoc.
      * by rewrite Hr.
    + constructor; [|done]. simpl. intros tx ->. by destruct Hr as (_ & ? & ? & ?).
Qed.

(** [get_balance] does not touch the log. *)
Lemma get_balance_log w (r : Result Z) w' :
  get_balance w = (r, w') → _transaction_history w' = _transaction_history w.
Proof. intros Hg. py_world w. by py_cases. Qed.

(** The session fields keep the shape [consistent] describes, whatever the
    operation and whatever the collaborators answer. *)
Lemma invoke_consistent (o : Op.t) w :
  consistent w = true → consistent (Op.invoke o w).2 = true.
Proof.
  intros Hc. destruct o; py_world w; unfold consistent in *;
    py_cases; try done;
    repeat match goal with
           | H : _ && _ = true |- _ => apply andb_prop in H as [? ?]
           | H : bool_decide _ = true |- _ => apply bool_decide_eq_true in H
           end; simplify_eq; simpl;
    rewrite ?andb_true_iff, ?bool_decide_eq_true; eauto.
Qed.

Lemma new_consistent (bank : B) (dispenser : D) (reader : R) (h : Heap) (rt : T) :
  consistent (ATMController.new bank dispenser reader h rt) = true.
Proof. reflexivity. Qed.

End ControllerProperties.

(** ** The properties at work on the test doubles *)

Section OnTheMocks.

Import ATMController Examples.

(** [enter_pin] with no card inserted (test_enter_pin_without_card). *)
Lemma state_gating_witness :
  Op.invoke (Op.enter_pin "1234") (fixture 5000)
  = (Some (Exn ATMException "No card inserted or PIN already verified"), fixture 5000).
Proof.
  apply (state_gating (Op.enter_pin "1234") CARD_INSERTED (fixture 5000)).
  - reflexivity.
  - vm_compute. discriminate.
Defined.

(** [deposit(-100)] and [withdraw(-100)] with account "1001" selected
    (test_deposit_invalid_amount, test_withdraw_invalid_amount). *)
Lemma nonpositive_amount_rejected_witness :
  deposit (-100) (selected_1001 5000)
  = (Raise (Exn ATMException "Deposit amount must be positive"), selected_1001 5000)
  ∧ withdraw (-100) (selected_1001 5000)
    = (Raise (Exn ATMException "Withdrawal amount must be positive"), selected_1001 5000).
Proof.
  apply (nonpositive_amount_rejected (selected_1001 5000) (-100)).
  - vm_compute. reflexivity.
  - vm_compute. reflexivity.
  - lia.
Defined.

(** [eject_card] after a deposit session (test_eject_card), and again. *)
Lemma eject_card_idempotent_witness :
  ∃ w', eject_card (after (deposit 100) (selected_1001 5000)) = (Return true, w')
        ∧ session w' = (IDLE, None, None, [])
        ∧ eject_card w' = (Return true, w').
Proof.
  apply (eject_card_idempotent (after (deposit 100) (selected_1001 5000))).
  intros _. eexists _, _. vm_compute. reflexivity.
Defined.

(** A wrong PIN (test_enter_incorrect_pin). *)
Lemma enter_pin_outcomes_witness :
  ∃ w', enter_pin "0000" card_inserted
        = (Raise (Exn InvalidPinException "Incorrect PIN"), w')
        ∧ session w' = (IDLE, None, None, []).
Proof.
  edestruct (enter_pin_outcomes card_inserted
               (Card.Build "1234567890123456" "John Doe" 31536000 "DEBIT" true)
               "0000" false) as (w' & Hw & _).
  - vm_compute. reflexivity.
  - vm_compute. reflexivity.
  - vm_compute. reflexivity.
  - exists w'. exact Hw.
Defined.

(** The right PIN (test_enter_correct_pin). *)
Example enter_pin_correct :
  ∃ w', enter_pin "1234" card_inserted = (Return true, w')
        ∧ _state w' = PIN_VERIFIED
        ∧ _current_card w' = _current_card card_inserted.
Proof. eexists. vm_compute. done. Qed.

(** Account "2001" exists but belongs to the other card
    (test_select_account_not_owned); account "1001" is the card's own
    (test_select_valid_account). *)
Lemma select_account_ownership_witness :
  (∃ w', select_account "2001" pin_verified
         = (Raise (Exn AccountNotFoundException "Account does not belong to this card"),
            w')
         ∧ session w' = (PIN_VERIFIED, _current_card pin_verified, None, []))
  ∧ (∃ w', select_account "1001" pin_verified = (Return 0%nat, w')
           ∧ session w' = (ACCOUNT_SELECTED, _current_card pin_verified, Some 0%nat, [])).
Proof.
  split.
  - edestruct (select_account_ownership pin_verified
                 (Card.Build "1234567890123456" "John Doe" 31536000 "DEBIT" true)
                 "2001" 2%nat [0%nat; 1%nat]) as [Hout _].
    + vm_compute. reflexivity.
    + vm_compute. reflexivity.
    + vm_compute. reflexivity.
    + vm_compute. reflexivity.
    + vm_compute. reflexivity.
    + apply Hout. apply (bool_decide_unpack _). vm_compute. exact I.
  - edestruct (select_account_ownership pin_verified
                 (Card.Build "1234567890123456" "John Doe" 31536000 "DEBIT" true)
                 "1001" 0%nat [0%nat; 1%nat]) as [_ Hin].
    + vm_compute. reflexivity.
    + vm_compute. reflexivity.
    + vm_compute. reflexivity.
    + vm_compute. reflexivity.
    + vm_compute. reflexivity.
    + apply Hin. apply (bool_decide_unpack _). vm_compute. exact I.
Defined.

(** 200 asked of an ATM holding 100 (test_withdraw_insufficient_cash,
    scenario D): the bank is not reached and account "1001" keeps its
    balance of 1000. *)
Lemma withdraw_check_order_witness :
  ∃ w', withdraw 200 (selected_1001 100)
        = (Raise (Exn InsufficientCashException "ATM has insufficient cash"), w')
        ∧ calls w' = calls (selected_1001 100) ++ [Call.has_sufficient_cash 200 (Return false)]
        ∧ _bank_service w' = _bank_service (selected_1001 100)
        ∧ heap w' = heap (selected_1001 100)
        ∧ session w' = session (selected_1001 100).
Proof.
  edestruct (withdraw_check_order (selected_1001 100) 200 false) as [Hcash _].
  - vm_compute. reflexivity.
  - vm_compute. reflexivity.
  - lia.
  - vm_compute. reflexivity.
  - apply Hcash. reflexivity.
Defined.

(** 1500 asked of account "1001" holding 1000
    (test_withdraw_insufficient_funds, scenario E). *)
Example withdraw_insufficient_funds :
  ∃ w', withdraw 1500 (selected_1001 5000)
        = (Raise (Exn InsufficientFundsException "Insufficient funds in account"), w')
        ∧ calls w' = calls (selected_1001 5000)
                     ++ [Call.has_sufficient_cash 1500 (Return true);
                         Call.get_balance "1001" (Return 1000)]
        ∧ heap w' = heap (selected_1001 5000)
        ∧ _cash_dispenser w' = _cash_dispenser (selected_1001 5000).
Proof. eexists. vm_compute. done. Qed.

(** The controller holds the account object it selected (balance 1000)
    while the bank's entry for "1001" is another object (balance 50): the
    failing [withdraw(200)] leaves 50 in the balance of the held object. *)
Lemma insufficient_funds_overwrites_cache_witness :
  _current_account replaced_1001 = Some 0%nat
  ∧ Account.balance (deref (heap replaced_1001) 0%nat) = 1000
  ∧ ∃ w', withdraw 200 replaced_1001
          = (Raise (Exn InsufficientFundsException "Insufficient funds in account"), w')
          ∧ _current_account w' = Some 0%nat
          ∧ Account.balance (deref (heap w') 0%nat) = 50.
Proof.
  split; [reflexivity|]. split; [reflexivity|].
  edestruct (insufficient_funds_overwrites_cache replaced_1001 200 0%nat 50)
    as (w' & Hw & Hacc & _ & Hbal).
  - vm_compute. reflexivity.
  - vm_compute. reflexivity.
  - lia.
  - vm_compute. reflexivity.
  - vm_compute. reflexivity.
  - lia.
  - exists w'. split; [exact Hw|]. split; [exact Hacc | exact Hbal].
Defined.

(** C2, as the specification words it, fails: on an ATM whose dispenser
    passes the cash check and then cannot deliver, [withdraw(200)] debits
    account "1001" (the bank returns the new balance 800), the dispenser
    raises [InsufficientCashException], and that very exception -- an
    instance of the ordinary [InsufficientCashException], not of a class
    reserved for this case -- is what the caller gets. *)
Lemma dispense_failure_is_insufficient_cash :
  ∃ e w', withdraw 200 jammed_selected_1001 = (Raise e, w')
          ∧ Call.withdraw "1001" 200 (Return 800) ∈ calls w'
          ∧ last (calls w') = Some (Call.dispense_cash 200 (Raise e))
          ∧ exn_class e = InsufficientCashException
          ∧ Account.balance (deref (heap w') 0%nat) = 800.
Proof.
  eexists _, _. split; [vm_compute; reflexivity|].
  split; [|by vm_compute].
  apply list_elem_of_In. vm_compute. tauto.
Qed.

(** The same session through the general statement. *)
Lemma dispense_failure_propagates_witness :
  ∃ w', withdraw 200 jammed_selected_1001
        = (Raise (Exn InsufficientCashException "Unable to dispense cash"), w')
        ∧ session w' = session jammed_selected_1001.
Proof.
  edestruct (dispense_failure_propagates jammed_selected_1001 200 0%nat 1000 800
               (Exn InsufficientCashException "Unable to dispense cash"))
    as (w' & Hw & Hsession & _).
  - vm_compute. reflexivity.
  - vm_compute. reflexivity.
  - lia.
  - vm_compute. reflexivity.
  - vm_compute. reflexivity.
  - lia.
  - vm_compute. reflexivity.
  - vm_compute. reflexivity.
  - exists w'. split; [exact Hw | exact Hsession].
Defined.

(** Three movements and a refused one (test_multiple_transactions): the log
    has the three transactions, with the balances the bank returned. *)
Example multiple_transactions :
  let run := Tx.run [Tx.deposit 500; Tx.withdraw 200; Tx.withdraw 5000; Tx.deposit 100]
                    (selected_1001 5000) in
  _transaction_history run.2 = Tx.successes run.1
  ∧ Transaction.transaction_type <$> _transaction_history run.2
    = [Transaction.DEPOSIT; Transaction.WITHDRAWAL; Transaction.DEPOSIT]
  ∧ Transaction.balance_after <$> _transaction_history run.2 = [1500; 1300; 1400].
Proof. vm_compute. done. Qed.

(** Scenario A of the specification. *)
Example scenario_A :
  (insert_card "1234567890123456" ;;; enter_pin "1234" ;;; select_account "1001" ;;;
   deposit 500 ;;; b1 <- get_balance ;; withdraw 200 ;;; b2 <- get_balance ;;
   log <- get_transaction_history ;;
   ret (b1, b2, Transaction.transaction_type <$> log))%py (fixture 5000)
  = (Return (1500, 1300, [Transaction.DEPOSIT; Transaction.WITHDRAWAL]),
     after (insert_card "1234567890123456" ;;; enter_pin "1234" ;;;
            select_account "1001" ;;; deposit 500 ;;; get_balance ;;;
            withdraw 200 ;;; get_balance)%py (fixture 5000)).
Proof. vm_compute. reflexivity. Qed.

(** Scenario B: the card the bank does not validate is refused and the
    controller is back in [IDLE] (test_insert_invalid_card). *)
Example scenario_B :
  ∃ w', insert_card "3456789012345678" (fixture 5000)
        = (Raise (Exn InvalidCardException "Invalid card"), w')
        ∧ session w' = (IDLE, None, None, []).
Proof. eexists. vm_compute. done. Qed.

(** Scenario C: after a wrong PIN the same controller accepts a card
    again. *)
Example scenario_C :
  ∃ w', insert_card "1234567890123456" (after (enter_pin "0000") card_inserted)
        = (Return true, w')
        ∧ _state w' = CARD_INSERTED.
Proof. eexists. vm_compute. done. Qed.

End OnTheMocks.

(** ** Further properties of the controller, for arbitrary collaborators *)

Section SessionProperties.

Import ATMController.

Context {B D R T : Type}.
Context `{!BankService.t B, !CashDispenser.t D, !CardReader.t R, !Runtime.t T}.

Abbreviation World := (ATMController.t B D R T).

Implicit Types (w : World) (amount : Z) (account : ref) (card : Card.t).

Ltac py_unfold :=
  unfold Op.invoke, Op.outcome, Tx.perform,
    insert_card, enter_pin, get_accounts, select_account,
    deposit, withdraw, get_balance, eject_card, get_transaction_history, get_state,
    _reset_session, make_transaction, Transaction_new,
    call_bank, call_dispenser, call_reader,
    try_except, bind, gets, get, modify, raise, ret in *.

Ltac py_cases := repeat (simpl in *; simplify_eq; try case_match).

Ltac py_world w :=
  destruct w as [? ? ? ? ? ? ? ? ? ?]; simpl in *; simplify_eq; py_unfold; simpl.

(** [except Exception] catches every exception. *)
Lemma isinstance_Exception (e : exn) : isinstance e Exception = true.
Proof. by destruct e as [[] msg]. Qed.

(** X1.  [insert_card] from [IDLE]: it either returns [True], and then the state
    is [CARD_INSERTED], the card held is the one the reader returned for
    that number, and account and log are untouched; or it raises -- whoever
    raised, the bank, the reader or the controller itself --, and then the
    session has been reset. *)
Theorem insert_card_outcome w (card_number : string) (r : Result bool) w' :
  _state w = IDLE →
  insert_card card_number w = (r, w') →
  match r with
  | Return ok =>
      ok = true
      ∧ _state w' = CARD_INSERTED
      ∧ (∃ card, _current_card w' = Some card
                 ∧ last (calls w') = Some (Call.read_card card_number (Return card)))
      ∧ _current_account w' = _current_account w
      ∧ _transaction_history w' = _transaction_history w
  | Raise _ => session w' = (IDLE, None, None, [])
  end.
Proof.
  intros Hs Hi. py_world w. py_cases; try done;
    try match goal with
        | H : isinstance _ Exception = false |- _ =>
            by rewrite isinstance_Exception in H
        end.
  repeat split; try done. eexists. split; [done|]. by rewrite last_snoc.
Qed.

(** X2.  A card the bank does not validate never reaches the reader:
    [insert_card] raises [InvalidCardException] after the single invocation
    of [validate_card], and the session is reset. *)
Theorem insert_card_rejected w (card_number : string) (b' : B) (h' : Heap) :
  _state w = IDLE →
  BankService.validate_card card_number (_bank_service w, heap w)
    = (Return false, (b', h')) →
  ∃ w', insert_card card_number w
        = (Raise (Exn InvalidCardException "Invalid card"), w')
        ∧ calls w' = calls w ++ [Call.validate_card card_number (Return false)]
        ∧ _card_reader w' = _card_reader w
        ∧ session w' = (IDLE, None, None, []).
Proof.
  intros Hs Hv. py_world w. rewrite Hv. simpl. by eexists.
Qed.

(** X3.  An exception raised by the bank's [verify_pin] passes through
    [enter_pin] as it is; the session is reset when it is an
    [InvalidPinException] and kept as it was for any other class. *)
Theorem enter_pin_bank_error w card (pin : string) (e : exn) (b' : B) (h' : Heap) :
  _state w = CARD_INSERTED →
  _current_card w = Some card →
  BankService.verify_pin (Card.card_number card) pin (_bank_service w, heap w)
    = (Raise e, (b', h')) →
  ∃ w', enter_pin pin w = (Raise e, w')
        ∧ session w' = (if isinstance e InvalidPinException
                        then (IDLE, None, None, [])
                        else session w).
Proof.
  intros Hs Hc Hv. py_world w. rewrite Hv. simpl.
  destruct (isinstance e InvalidPinException); by eexists.
Qed.


(** X5.  No operation skips a state: the state after is the state before, or
    [IDLE], or the successor of the state before -- and an operation that
    raises never moves forward. *)
Theorem transitions_linear (o : Op.t) w :
  match (Op.invoke o w).1 with
  | None =>
      _state (Op.invoke o w).2 = _state w
      ∨ _state (Op.invoke o w).2 = IDLE
      ∨ successor (_state w) = Some (_state (Op.invoke o w).2)
  | Some _ =>
      _state (Op.invoke o w).2 = _state w ∨ _state (Op.invoke o w).2 = IDLE
  end.
Proof.
  destruct o; destruct w as [? ? ? [] ? ? ? ? ? ?]; py_unfold; py_cases; auto.
Qed.

(** X6.  Whatever sequence of operations is invoked on a newly built controller,
    and whatever the collaborators answer, the session fields fit the
    state: no card, no account and an empty log in [IDLE]; a card, no
    account and an empty log in [CARD_INSERTED] and [PIN_VERIFIED]; a card
    and an account in [ACCOUNT_SELECTED]. *)
Theorem reachable_consistent (ops : list Op.t) (bank : B) (dispenser : D) (reader : R)
    (h : Heap) (rt : T) :
  consistent (Op.invoke_all ops (ATMController.new bank dispenser reader h rt)) = true.
Proof.
  unfold Op.invoke_all.
  assert (consistent (ATMController.new bank dispenser reader h rt) = true) as Hc
    by reflexivity.
  revert Hc. generalize (ATMController.new bank dispenser reader h rt).
  induction ops as [|o ops IH]; intros w Hc; simpl; [done|].
  apply IH. by apply invoke_consistent.
Qed.

(** The invocations an operation adds to the record. *)
Lemma invoke_extends_calls (o : Op.t) w :
  ∃ made, calls (Op.invoke o w).2 = calls w ++ made.
Proof.
  destruct o; py_world w; py_cases; rewrite <- ?app_assoc;
    first [by eexists | by exists []; rewrite app_nil_r].
Qed.

(** X7.  An exception that leaves the controller is either an instance of
    [ATMException] or the very exception a collaborator raised in the last
    invocation made: the controller raises nothing outside the
    [ATMException] family on its own. *)
Theorem exception_origin (o : Op.t) w (e : exn) w' :
  Op.invoke o w = (Some e, w') →
  isinstance e ATMException = true
  ∨ ∃ c, last (calls w') = Some c
         ∧ Call.raised c = Some e
         ∧ (length (calls w) < length (calls w'))%nat.
Proof.
  intros Hi. destruct o; py_world w; py_cases;
    first [ by left
          | right; eexists; rewrite ?last_snoc, ?length_app; simpl;
            split; [reflexivity|]; split; [reflexivity|lia] ].
Qed.

(** X8.  The log after an operation is the log before, or the log before with
    one more transaction at the end (and then the operation returned), or
    empty: entries are never altered, reordered or dropped one by one. *)
Theorem log_append_or_reset (o : Op.t) w :
  _transaction_history (Op.invoke o w).2 = _transaction_history w
  ∨ _transaction_history (Op.invoke o w).2 = []
  ∨ ∃ tx, _transaction_history (Op.invoke o w).2 = _transaction_history w ++ [tx]
          ∧ (Op.invoke o w).1 = None.
Proof.
  destruct o; py_world w; py_cases; eauto.
Qed.

(** X9.  A [deposit] or [withdraw] that returns a transaction was made with an
    account selected and a positive amount; it leaves the state as it was,
    and the balance of the held account object is the [balance_after] of the
    transaction returned. *)
Theorem money_movement_updates_cache (o : Tx.t) w (tx : Transaction.t) w' :
  Tx.perform o w = (Return tx, w') →
  0 < Tx.amount_of o
  ∧ _state w = ACCOUNT_SELECTED
  ∧ _state w' = ACCOUNT_SELECTED
  ∧ _current_card w' = _current_card w
  ∧ ∃ account, _current_account w = Some account
               ∧ _current_account w' = Some account
               ∧ Account.balance (deref (heap w') account)
                 = Transaction.balance_after tx.
Proof.
  intros Hp. destruct o; destruct w as [? ? ? [] ? ? ? ? ? ?]; py_unfold; py_cases;
    (split; [lia|]); repeat (split; [done|]);
    eexists; repeat (split; [done|]); apply balance_assign_balance.
Qed.

(** X10.  [get_balance] never touches state, card, account or log; when it
    returns, the value is the one the bank's [get_balance] returned in the
    last invocation made, and it is now the balance of the held account
    object. *)
Theorem get_balance_outcome w (r : Result Z) w' :
  get_balance w = (r, w') →
  session w' = session w
  ∧ ∀ balance, r = Return balance →
      ∃ account number,
        _current_account w = Some account
        ∧ last (calls w') = Some (Call.get_balance number (Return balance))
        ∧ Account.balance (deref (heap w') account) = balance.
Proof.
  intros Hg. py_world w. py_cases; (split; [done|]); intros balance Hr; simplify_eq.
  eexists _, _. split; [done|]. rewrite last_snoc. split; [done|].
  apply balance_assign_balance.
Qed.

Lemma app_self_nil {A} (l k : list A) : l = l ++ k → k = [].
Proof.
  intros Hl. apply (app_inv_head l). by rewrite app_nil_r.
Qed.

(** Reads the invocations made off an equation between records of calls,
    and goes through the members of the list found. *)
Ltac made_calls :=
  repeat match goal with
         | H : context [(_ ++ _) ++ _] |- _ => rewrite <- app_assoc in H; simpl in H
         | H : ?l ++ _ = ?l ++ _ |- _ => apply app_inv_head in H; subst
         | H : ?l = ?l ++ _ |- _ => apply app_self_nil in H; subst
         end;
  repeat match goal with
         | H : _ ∈ [] |- _ => by apply elem_of_nil in H
         | H : _ ∈ _ :: _ |- _ => apply elem_of_cons in H as [?|?]; simplify_eq
         end.

(** X11.  Cash leaves the dispenser only for a debit already made: whatever the
    operation, if [dispense_cash] is among the invocations it makes, the
    operation is a [withdraw] of exactly that amount, and the bank's
    [withdraw] for that amount has returned a new balance in the invocation
    just before. *)
Theorem dispense_only_after_debit (o : Op.t) w (made : list Call.t) (amount : Z)
    (r : Result bool) :
  calls (Op.invoke o w).2 = calls w ++ made →
  Call.dispense_cash amount r ∈ made →
  o = Op.withdraw amount
  ∧ ∃ before number new_balance,
      made = before ++ [Call.withdraw number amount (Return new_balance);
                        Call.dispense_cash amount r].
Proof.
  intros Hcalls Hin.
  destruct o; py_world w; py_cases; made_calls;
    (split; [done|]);
    by eexists [_; _], _, _.
Qed.

(** X12.  The ledger is debited only by a [withdraw] that has passed every check:
    if the bank's [withdraw] is among the invocations an operation makes,
    the operation is a [withdraw] of that amount, the amount is positive,
    and the two invocations before the debit are the cash check answered
    [True] and a balance read that returned at least the amount. *)
Theorem debit_only_after_checks (o : Op.t) w (made : list Call.t) (number : string)
    (amount : Z) (r : Result Z) :
  calls (Op.invoke o w).2 = calls w ++ made →
  Call.withdraw number amount r ∈ made →
  o = Op.withdraw amount
  ∧ 0 < amount
  ∧ ∃ number' balance rest,
      amount ≤ balance
      ∧ made = [Call.has_sufficient_cash amount (Return true);
                Call.get_balance number' (Return balance);
                Call.withdraw number amount r] ++ rest.
Proof.
  intros Hcalls Hin.
  destruct o; py_world w; py_cases; made_calls;
    repeat match goal with
           | H : negb ?a = false |- _ => destruct a; [clear H|done]
           | H : (_ <? _) = false |- _ => apply Z.ltb_ge in H
           | H : (_ <=? _) = false |- _ => apply Z.leb_gt in H
           end;
    (split; [done|]); (split; [lia|]);
    eexists _, _, _; refine (conj _ eq_refl); lia.
Qed.

End SessionProperties.

(** ** The test doubles on their own *)

Section MockProperties.

(** X13.  [dispense_cash] moves cash from the inventory to the dispensed total and
    nowhere else: their sum is kept, an inventory that is not negative stays
    so, a success means that the amount was positive and within the
    inventory, and a failure -- [ValueError] for an amount that is not
    positive, [InsufficientCashException] for one above the inventory --
    leaves the dispenser as it was. *)
Theorem dispense_cash_conserves (d : MockCashDispenser.t) (amount : Z)
    (r : Result bool) (d' : MockCashDispenser.t) :
  MockCashDispenser.dispense_cash amount d = (r, d') →
  MockCashDispenser._available_cash d' + MockCashDispenser._total_dispensed d'
  = MockCashDispenser._available_cash d + MockCashDispenser._total_dispensed d
  ∧ (0 ≤ MockCashDispenser._available_cash d → 0 ≤ MockCashDispenser._available_cash d')
  ∧ match r with
    | Return ok =>
        ok = true
        ∧ 0 < amount ≤ MockCashDispenser._available_cash d
        ∧ MockCashDispenser._available_cash d'
          = MockCashDispenser._available_cash d - amount
    | Raise e =>
        d' = d
        ∧ (amount ≤ 0 ∧ exn_class e = ValueError
           ∨ MockCashDispenser._available_cash d < amount
             ∧ exn_class e = InsufficientCashException)
    end.
Proof.
  unfold MockCashDispenser.dispense_cash. intros Hd.
  destruct (Z.leb_spec amount 0); simplify_eq; [naive_solver lia|].
  destruct (Z.leb_spec amount (MockCashDispenser._available_cash d));
    simpl in *; simplify_eq; simpl; [|naive_solver lia].
  repeat split; lia.
Qed.

(** X14.  What [has_sufficient_cash] promises, [dispense_cash] keeps: for a
    positive amount the check answers [True] exactly when dispensing
    succeeds. *)
Theorem sufficient_cash_iff_dispensable (d : MockCashDispenser.t) (amount : Z) :
  0 < amount →
  (MockCashDispenser.has_sufficient_cash amount d).1 = Return true
  ↔ ∃ d', MockCashDispenser.dispense_cash amount d = (Return true, d').
Proof.
  intros Ha. unfold MockCashDispenser.has_sufficient_cash,
    MockCashDispenser.dispense_cash. simpl.
  destruct (Z.leb_spec amount 0); [lia|].
  destruct (Z.leb_spec amount (MockCashDispenser._available_cash d)); simpl.
  - split; [by eexists|done].
  - split; [done|]. by intros [d' ?].
Qed.

(** X15.  An account number the bank does not know: [get_account] returns
    [None], [get_balance], [deposit] and [withdraw] raise [ValueError], and
    none of them changes anything. *)
Theorem bank_unknown_account (self : MockBankService.t) (h : Heap) (number : string)
    (amount : Z) :
  MockBankService._accounts self !! number = None →
  MockBankService.get_account number (self, h) = (Return None, (self, h))
  ∧ MockBankService.get_balance number (self, h)
    = (Raise (Exn ValueError ("Account " +:+ number +:+ " not found")), (self, h))
  ∧ MockBankService.deposit number amount (self, h)
    = (Raise (Exn ValueError ("Account " +:+ number +:+ " not found")), (self, h))
  ∧ MockBankService.withdraw number amount (self, h)
    = (Raise (Exn ValueError ("Account " +:+ number +:+ " not found")), (self, h)).
Proof.
  intros Hn. unfold MockBankService.get_account, MockBankService.get_balance,
    MockBankService.deposit, MockBankService.withdraw, MockBankService.not_found.
  by rewrite Hn.
Qed.

(** X16.  The bank's [withdraw] never overdraws: it returns only for a positive
    amount within the balance, the value returned is the balance less the
    amount, which is not negative, and it is the new balance of the account
    object; when it raises, nothing has changed. *)
Theorem bank_withdraw_outcome (self self' : MockBankService.t) (h h' : Heap)
    (number : string) (account : ref) (amount : Z) (r : Result Z) :
  MockBankService._accounts self !! number = Some account →
  MockBankService.withdraw number amount (self, h) = (r, (self', h')) →
  self' = self
  ∧ match r with
    | Return new_balance =>
        0 < amount ≤ Account.balance (deref h account)
        ∧ new_balance = Account.balance (deref h account) - amount
        ∧ 0 ≤ new_balance
        ∧ h' = assign_balance account new_balance h
        ∧ Account.balance (deref h' account) = new_balance
    | Raise _ => h' = h
    end.
Proof.
  intros Hn. unfold MockBankService.withdraw. rewrite Hn.
  destruct (Z.leb_spec amount 0); [by intros; simplify_eq|].
  destruct (Z.ltb_spec (Account.balance (deref h account)) amount);
    intros; simplify_eq; [done|].
  rewrite balance_assign_balance. repeat split; lia.
Qed.

(** X17.  Depositing an amount and withdrawing it again brings the bank and the
    account object back to where they were: the withdrawal succeeds and
    returns the balance held before the deposit. *)
Theorem bank_deposit_withdraw_roundtrip (self : MockBankService.t) (h : Heap)
    (number : string) (account : ref) (a : Account.t) (amount : Z) :
  MockBankService._accounts self !! number = Some account →
  h !! account = Some a →
  0 < amount →
  0 ≤ Account.balance a →
  ∃ h1, MockBankService.deposit number amount (self, h)
        = (Return (Account.balance a + amount), (self, h1))
        ∧ MockBankService.withdraw number amount (self, h1)
          = (Return (Account.balance a), (self, h)).
Proof.
  intros Hn Ha Hpos Hbal.
  assert (deref h account = a) as Hd by (unfold deref; by rewrite (lookup_total_correct _ _ _ Ha)).
  unfold MockBankService.deposit, MockBankService.withdraw. rewrite Hn.
  destruct (Z.leb_spec amount 0); [lia|].
  rewrite !balance_assign_balance, Hd. eexists. split; [reflexivity|].
  rewrite !balance_assign_balance.
  destruct (Z.ltb_spec (Account.balance a + amount) amount); [lia|].
  replace (Account.balance a + amount - amount) with (Account.balance a) by lia.
  do 2 f_equal.
  unfold assign_balance at 1. rewrite deref_assign_balance, Hd.
  unfold assign_balance. rewrite insert_insert_eq.
  apply insert_id. rewrite Ha. f_equal. by destruct a.
Qed.

(** X30.  A PIN is verified only for a card the bank validates. *)
Theorem verify_pin_implies_valid (self : MockBankService.t) (h : Heap)
    (card_number pin : string) :
  (MockBankService.verify_pin card_number pin (self, h)).1 = Return true →
  (MockBankService.validate_card card_number (self, h)).1 = Return true.
Proof.
  unfold MockBankService.verify_pin, MockBankService.validate_card. simpl.
  destruct (MockBankService._cards self !! card_number) as [[card_pin []]|]; naive_solver.
Qed.

(** [add_test_card] registers a valid card: the bank validates it, verifies
    exactly the PIN given, and answers for every other card as before. *)
Theorem add_test_card_lookup (self : MockBankService.t) (h : Heap)
    (card_number pin : string) (account_numbers : list string) :
  let self' := MockBankService.add_test_card card_number pin account_numbers self in
  (MockBankService.validate_card card_number (self', h)).1 = Return true
  ∧ (∀ p, (MockBankService.verify_pin card_number p (self', h)).1
          = Return (bool_decide (pin = p)))
  ∧ (∀ other p, other ≠ card_number →
       (MockBankService.validate_card other (self', h)).1
       = (MockBankService.validate_card other (self, h)).1
       ∧ (MockBankService.verify_pin other p (self', h)).1
         = (MockBankService.verify_pin other p (self, h)).1
       ∧ (MockBankService.get_accounts other (self', h)).1
         = (MockBankService.get_accounts other (self, h)).1).
Proof.
  unfold MockBankService.validate_card, MockBankService.verify_pin,
    MockBankService.get_accounts, MockBankService.add_test_card. simpl.
  rewrite lookup_insert_eq. split; [done|]. split; [done|].
  intros other p Hne. by rewrite !lookup_insert_ne.
Qed.

Lemma deref_lookup (h : Heap) (r : ref) (a : Account.t) :
  h !! r = Some a → deref h r = a.
Proof. intros Hr. unfold deref. by rewrite (lookup_total_correct _ _ _ Hr). Qed.

(** Assigning to a balance the value it has changes nothing. *)
Lemma assign_balance_same (h : Heap) (r : ref) (a : Account.t) :
  h !! r = Some a → assign_balance r (Account.balance a) h = h.
Proof.
  intros Hr. unfold assign_balance. rewrite (deref_lookup _ _ _ Hr).
  apply insert_id. rewrite Hr. f_equal. by destruct a.
Qed.

(** An assignment to a balance keeps every object under its number. *)
Lemma keyed_assign_balance (self : MockBankService.t) (h : Heap) (r : ref) (b : Z) :
  MockBankService.keyed self h → MockBankService.keyed self (assign_balance r b h).
Proof.
  unfold MockBankService.keyed. intros Hk. eapply map_Forall_impl; [exact Hk|].
  simpl. intros number account (a & Ha & Hnum)%fmap_Some. unfold assign_balance.
  destruct (decide (r = account)) as [->|Hne].
  - rewrite lookup_insert_eq, (deref_lookup _ _ _ Ha). simpl. by rewrite Hnum.
  - rewrite lookup_insert_ne by done. by rewrite Ha, Hnum.
Qed.

(** X18.  [MockBankService()] files each of its three accounts under its own
    number, as a new object: the objects already in the store are not
    touched. *)
Theorem bank_new_keyed (h : Heap) :
  MockBankService.keyed (MockBankService.new h).1 (MockBankService.new h).2
  ∧ ∀ r a, h !! r = Some a → (MockBankService.new h).2 !! r = Some a.
Proof.
  unfold MockBankService.new, alloc. cbv beta zeta iota delta [fst snd].
  set (r1 := fresh (dom h)). set (h1 := <[r1:=MockBankService.account_1001]> h).
  set (r2 := fresh (dom h1)). set (h2 := <[r2:=MockBankService.account_1002]> h1).
  set (r3 := fresh (dom h2)).
  assert (r1 ∉ dom h) as F1 by apply is_fresh.
  assert (r2 ∉ dom h1) as F2 by apply is_fresh.
  assert (r3 ∉ dom h2) as F3 by apply is_fresh.
  unfold h2 in F3. unfold h1 in F2, F3. rewrite !dom_insert_L in *.
  assert (r2 ≠ r1) by set_solver. assert (r3 ≠ r1) by set_solver.
  assert (r3 ≠ r2) by set_solver.
  split.
  - unfold MockBankService.keyed. cbn [MockBankService._accounts]. unfold h2, h1.
    repeat apply map_Forall_insert_2; [..|apply map_Forall_empty];
      repeat first [rewrite lookup_insert_eq | rewrite lookup_insert_ne by done];
      reflexivity.
  - intros r a Hr. assert (r ∈ dom h) by (apply elem_of_dom; by eexists).
    unfold h2, h1. rewrite !lookup_insert_ne by set_solver. done.
Qed.

(** X19.  The bank's [deposit] and [withdraw], and [add_test_account] for an
    object of the store, keep every account object under its own number. *)
Theorem bank_keeps_keyed (self : MockBankService.t) (h : Heap) (number : string)
    (amount : Z) :
  MockBankService.keyed self h →
  MockBankService.keyed (MockBankService.deposit number amount (self, h)).2.1
                        (MockBankService.deposit number amount (self, h)).2.2
  ∧ MockBankService.keyed (MockBankService.withdraw number amount (self, h)).2.1
                          (MockBankService.withdraw number amount (self, h)).2.2
  ∧ ∀ account a, h !! account = Some a →
      MockBankService.keyed (MockBankService.add_test_account account h self) h.
Proof.
  intros Hk. unfold MockBankService.deposit, MockBankService.withdraw.
  repeat split.
  - repeat case_match; simpl; auto using keyed_assign_balance.
  - repeat case_match; simpl; auto using keyed_assign_balance.
  - intros account a Ha. unfold MockBankService.keyed, MockBankService.add_test_account.
    simpl. apply map_Forall_insert_2; [|done].
    by rewrite (deref_lookup _ _ _ Ha), Ha.
Qed.

End MockProperties.

(** ** The controller on the test doubles *)

Section OnMockBank.

Import ATMController.

Context {D R T : Type}.
Context `{!CashDispenser.t D, !CardReader.t R, !Runtime.t T}.

Implicit Types (w : ATMController.t MockBankService.t D R T).

Ltac py_unfold :=
  unfold Op.invoke, Op.outcome, Tx.perform,
    insert_card, enter_pin, get_accounts, select_account,
    deposit, withdraw, get_balance, eject_card, get_transaction_history, get_state,
    _reset_session, make_transaction, Transaction_new,
    call_bank, call_dispenser, call_reader,
    try_except, bind, gets, get, modify, raise, ret in *.

Ltac py_world w :=
  destruct w as [? ? ? ? ? ? ? ? ? ?]; simpl in *; simplify_eq; py_unfold; simpl.

(** X20.  Every account [get_accounts] lists for the held card can be selected by
    its number, and is then the account held. *)
Theorem listed_account_selectable w card (accounts : list ref) w1 account :
  _state w = PIN_VERIFIED →
  _current_card w = Some card →
  MockBankService.keyed (_bank_service w) (heap w) →
  get_accounts w = (Return accounts, w1) →
  account ∈ accounts →
  ∃ w2, select_account (Account.account_number (deref (heap w1) account)) w1
        = (Return account, w2)
        ∧ _state w2 = ACCOUNT_SELECTED
        ∧ _current_account w2 = Some account.
Proof.
  intros Hs Hc Hk Hget Hin. py_world w. simpl in *. simplify_eq. simpl.
  apply list_elem_of_omap in Hin as (number & Hnum & Hacc).
  pose proof (Hk number account Hacc) as Hobj. simpl in Hobj.
  apply fmap_Some in Hobj as (a & Ha & Hna). symmetry in Hna.
  rewrite (deref_lookup _ _ _ Ha), Hna, Hacc. simpl.
  rewrite bool_decide_eq_true_2; [by eexists|].
  unfold account_numbers. apply list_elem_of_fmap. exists account.
  rewrite (deref_lookup _ _ _ Ha). split; [done|].
  apply list_elem_of_omap. by exists number.
Qed.

(** X21.  When the account held is the bank's own object for its number, the
    cached balance and the ledger balance are one and the same field:
    [get_balance] returns it and leaves bank, account objects and session
    as they were. *)
Theorem get_balance_on_shared_object w account (a : Account.t) :
  _state w = ACCOUNT_SELECTED →
  _current_account w = Some account →
  heap w !! account = Some a →
  MockBankService._accounts (_bank_service w) !! Account.account_number a = Some account →
  ∃ w', get_balance w = (Return (Account.balance a), w')
        ∧ heap w' = heap w
        ∧ _bank_service w' = _bank_service w
        ∧ session w' = session w
        ∧ calls w' = calls w ++ [Call.get_balance (Account.account_number a)
                                                  (Return (Account.balance a))].
Proof.
  intros Hs Hacc Ha Hb. py_world w.
  rewrite (deref_lookup _ _ _ Ha). unfold MockBankService.get_balance.
  destruct _bank_service0 as [cards accts card_accts]. simpl in *. rewrite Hb.
  rewrite (deref_lookup _ _ _ Ha). simpl. eexists. split; [reflexivity|]. simpl.
  repeat split. unfold assign_balance. rewrite (deref_lookup _ _ _ Ha).
  apply insert_id. rewrite Ha. f_equal. by destruct a.
Qed.

End OnMockBank.

Section OnMockDispenser.

Import ATMController.

Context {B R T : Type}.
Context `{!BankService.t B, !CardReader.t R, !Runtime.t T}.

Implicit Types (w : ATMController.t B MockCashDispenser.t R T).

Ltac py_unfold :=
  unfold Op.invoke, Op.outcome, Tx.perform,
    insert_card, enter_pin, get_accounts, select_account,
    deposit, withdraw, get_balance, eject_card, get_transaction_history, get_state,
    _reset_session, make_transaction, Transaction_new,
    call_bank, call_dispenser, call_reader,
    try_except, bind, gets, get, modify, raise, ret in *.

Ltac py_world w :=
  destruct w as [? ? ? ? ? ? ? ? ? ?]; simpl in *; simplify_eq; py_unfold; simpl.

(** X22.  With [MockCashDispenser], whatever the bank, a [withdraw] that raises
    has not debited the account: the cash check that passed guarantees the
    dispensing, so an exception can only come from before the debit or from
    the debit itself. *)
Theorem mock_dispenser_no_debit_on_failure w (amount : Z) (e : exn)
    (w' : ATMController.t B MockCashDispenser.t R T) (made : list Call.t)
    (number : string) (debited new_balance : Z) :
  withdraw amount w = (Raise e, w') →
  calls w' = calls w ++ made →
  Call.withdraw number debited (Return new_balance) ∉ made.
Proof.
  intros Hw Hcalls Hin. py_world w.
  unfold MockCashDispenser.has_sufficient_cash, MockCashDispenser.dispense_cash in *.
  repeat (simpl in *; simplify_eq; try case_match);
    repeat match goal with
           | H : context [(_ ++ _) ++ _] |- _ => rewrite <- app_assoc in H; simpl in H
           | H : ?l ++ _ = ?l ++ _ |- _ => apply app_inv_head in H; subst
           | H : ?l = ?l ++ _ |- _ =>
               rewrite <- (app_nil_r l) in H at 1; apply app_inv_head in H; subst
           end;
    repeat match goal with
           | H : _ ∈ [] |- _ => by apply elem_of_nil in H
           | H : _ ∈ _ :: _ |- _ => apply elem_of_cons in H as [?|?]; simplify_eq
           end.
  match goal with
  | Hd : MockCashDispenser.dispense_cash _ _ = _,
    Hpos : (_ <=? 0) = false, Hcash : negb _ = false |- _ =>
      unfold MockCashDispenser.dispense_cash in Hd; by rewrite Hpos, Hcash in Hd
  end.
Qed.

End OnMockDispenser.

Section OnTheMocksInGeneral.

Import ATMController.

Context {R T : Type}.
Context `{!CardReader.t R, !Runtime.t T}.

Implicit Types (w : ATMController.t MockBankService.t MockCashDispenser.t R T).

Ltac py_unfold :=
  unfold Op.invoke, Op.outcome, Tx.perform,
    insert_card, enter_pin, get_accounts, select_account,
    deposit, withdraw, get_balance, eject_card, get_transaction_history, get_state,
    _reset_session, make_transaction, Transaction_new,
    call_bank, call_dispenser, call_reader,
    try_except, bind, gets, get, modify, raise, ret in *.

Ltac py_world w :=
  destruct w as [? ? ? ? ? ? ? ? ? ?]; simpl in *; simplify_eq; py_unfold; simpl.

(** X23.  On the mock bank and the mock dispenser, a [withdraw] of a positive
    amount covered by both the inventory and the balance of the account
    held (the bank's own object for its number) succeeds, and the money
    moves once: the account balance and the inventory both go down by the
    amount, the dispensed total goes up by it, and the transaction logged
    carries the new balance. *)
Theorem mock_withdraw_moves_money w (amount : Z) account (a : Account.t) :
  _state w = ACCOUNT_SELECTED →
  _current_account w = Some account →
  heap w !! account = Some a →
  MockBankService._accounts (_bank_service w) !! Account.account_number a = Some account →
  0 < amount →
  amount ≤ MockCashDispenser._available_cash (_cash_dispenser w) →
  amount ≤ Account.balance a →
  ∃ tx w',
    withdraw amount w = (Return tx, w')
    ∧ Transaction.balance_after tx = Account.balance a - amount
    ∧ Transaction.account_number tx = Account.account_number a
    ∧ heap w' = <[account := Account.set_balance (Account.balance a - amount) a]> (heap w)
    ∧ MockCashDispenser._available_cash (_cash_dispenser w')
      = MockCashDispenser._available_cash (_cash_dispenser w) - amount
    ∧ MockCashDispenser._total_dispensed (_cash_dispenser w')
      = MockCashDispenser._total_dispensed (_cash_dispenser w) + amount
    ∧ _transaction_history w' = _transaction_history w ++ [tx].
Proof.
  intros Hs Hacc Ha Hb Hpos Hcash Hbal. py_world w.
  destruct _bank_service0 as [cards accts card_accts].
  destruct _cash_dispenser0 as [available dispensed]. simpl in *.
  unfold MockCashDispenser.has_sufficient_cash, MockCashDispenser.dispense_cash,
    MockBankService.get_balance, MockBankService.withdraw. simpl.
  destruct (Z.leb_spec amount 0); [lia|]. simpl.
  destruct (Z.leb_spec amount available); [|lia]. simpl.
  rewrite !(deref_lookup _ _ _ Ha), Hb. simpl.
  rewrite !(deref_lookup _ _ _ Ha).
  destruct (Z.ltb_spec (Account.balance a) amount); [lia|]. simpl.
  rewrite (assign_balance_same _ _ _ Ha), !(deref_lookup _ _ _ Ha), Hb. simpl.
  rewrite !(deref_lookup _ _ _ Ha).
  destruct (Z.ltb_spec (Account.balance a) amount); [lia|]. simpl.
  destruct (Z.leb_spec amount 0); [lia|]. simpl.
  destruct (Z.leb_spec amount available); [|lia]. simpl.
  rewrite !deref_assign_balance, !(deref_lookup _ _ _ Ha). simpl.
  destruct (Runtime.uuid4 runtime0) as [id rt1] eqn:Hid.
  destruct (Runtime.datetime_now rt1) as [ts rt2] eqn:Hts. simpl.
  eexists _, _. split; [reflexivity|]. simpl.
  repeat split; try done.
  unfold assign_balance at 1. rewrite deref_assign_balance, (deref_lookup _ _ _ Ha).
  unfold assign_balance. by rewrite insert_insert_eq.
Qed.

End OnTheMocksInGeneral.

(** ** The card reader double *)

Section ReaderProperties.

(** X24.  [read_card] hands out only what it should: a card returned carries the
    number asked for, of at least 12 characters, is active and not expired,
    and is then the card the reader holds; every failure is an
    [InvalidCardException] -- the [ValueError] of the [Card] constructor
    included -- and leaves the reader as it was. *)
Theorem read_card_outcome (self self' : MockCardReader.t) (card_number : string)
    (r : Result Card.t) :
  MockCardReader.read_card card_number self = (r, self') →
  match r with
  | Return card =>
      Card.card_number card = card_number
      ∧ (12 ≤ String.length card_number)%nat
      ∧ Card.is_active card = true
      ∧ Card.is_expired (MockCardReader.now self) card = false
      ∧ (∃ info, MockCardReader._card_info self !! card_number = Some info
                 ∧ Card.holder_name card = MockCardReader.holder_name info
                 ∧ Card.expiry_date card = MockCardReader.expiry_date info)
      ∧ MockCardReader._card_inserted self' = true
      ∧ MockCardReader._current_card self' = Some card
      ∧ MockCardReader._card_info self' = MockCardReader._card_info self
  | Raise e => exn_class e = InvalidCardException ∧ self' = self
  end.
Proof.
  unfold MockCardReader.read_card, Card.new, Card.is_expired. intros Hr.
  repeat (simpl in *; simplify_eq; try case_match); try congruence; try done.
  repeat split; try done; [|by eexists].
  match goal with
  | H : (_ <? 12)%nat = false |- _ => by apply Nat.ltb_ge in H
  end.
Qed.

(** X25.  Reading a card and ejecting it brings a reader that held no card back
    to where it was. *)
Theorem read_then_eject (self s1 : MockCardReader.t) (card_number : string)
    (card : Card.t) :
  MockCardReader._card_inserted self = false →
  MockCardReader._current_card self = None →
  MockCardReader.read_card card_number self = (Return card, s1) →
  MockCardReader.eject_card s1 = (Return true, self).
Proof.
  unfold MockCardReader.read_card, MockCardReader.eject_card. intros Hi Hc Hr.
  destruct self as [inserted current info now]. simpl in *. subst.
  repeat (simpl in *; simplify_eq; try case_match); done.
Qed.

End ReaderProperties.

(** ** The data model *)

Section ModelProperties.

(** X26.  An account that comes out of the constructor with a limit other than 0
    -- every account built without an explicit limit is one -- answers
    [can_withdraw] exactly as the invariant of the data model says: active,
    positive amount, amount within the limit, and, unless it is a [CREDIT]
    account, amount within the balance. *)
Theorem constructed_account_can_withdraw (account_number : string)
    (account_type : Account.AccountType) (balance : Z) (account_name : string)
    (is_active : bool) (limit : option Z) (a : Account.t) (amount : Z) :
  limit ≠ Some 0 →
  Account.new account_number account_type balance account_name is_active limit
    = Return a →
  is_Some (Account.daily_withdrawal_limit a)
  ∧ (Account.can_withdraw a amount = true ↔ Account.withdrawal_allowed a amount).
Proof.
  intros Hl Hnew. unfold Account.new in Hnew.
  repeat case_match; simplify_eq; (split; [by eexists|]);
    apply can_withdraw_iff; simpl; congruence.
Qed.

(** X27.  If an amount can be withdrawn, so can every smaller positive one. *)
Theorem can_withdraw_monotone (a : Account.t) (amount smaller : Z) :
  Account.can_withdraw a amount = true →
  0 < smaller ≤ amount →
  Account.can_withdraw a smaller = true.
Proof.
  unfold Account.can_withdraw, Account.truthy. intros Hc [Hpos Hle].
  destruct (Account.is_active a); simpl in *; [|done].
  destruct (Z.leb_spec amount 0); [done|].
  destruct (Z.leb_spec smaller 0); [lia|].
  destruct (Account.daily_withdrawal_limit a) as [l|]; simpl in *.
  - destruct (Z.eqb_spec l 0); simpl in *.
    + case_decide; [done|]. apply Z.leb_le in Hc. apply Z.leb_le. lia.
    + destruct (Z.ltb_spec l amount); [done|].
      destruct (Z.ltb_spec l smaller); [lia|].
      case_decide; [done|]. apply Z.leb_le in Hc. apply Z.leb_le. lia.
  - case_decide; [done|]. apply Z.leb_le in Hc. apply Z.leb_le. lia.
Qed.

(** For a [CREDIT] account the balance plays no part in [can_withdraw]. *)
Theorem credit_can_withdraw_ignores_balance (a : Account.t) (balance amount : Z) :
  Account.account_type a = Account.CREDIT →
  Account.can_withdraw (Account.set_balance balance a) amount
  = Account.can_withdraw a amount.
Proof.
  intros Hty. unfold Account.can_withdraw. simpl. rewrite Hty.
  by repeat case_match.
Qed.

(** X28.  The [Card] constructor accepts only a number of at least 12 characters
    and a holder name that is not empty; the card it returns is active
    exactly when it was given as active and its expiry is not before the
    instant of construction, so that an active card is not expired at that
    instant. *)
Theorem card_new_outcome (now : Z) (card_number holder_name : string) (expiry_date : Z)
    (card_type : string) (is_active : bool) :
  match Card.new now card_number holder_name expiry_date card_type is_active with
  | Return card =>
      (12 ≤ String.length card_number)%nat
      ∧ holder_name ≠ ""
      ∧ Card.card_number card = card_number
      ∧ (Card.is_active card = true ↔ is_active = true ∧ now ≤ expiry_date)
      ∧ (Card.is_active card = true → Card.is_expired now card = false)
  | Raise e =>
      exn_class e = ValueError
      ∧ ((String.length card_number < 12)%nat ∨ holder_name = "")
  end.
Proof.
  unfold Card.new, Card.is_expired.
  destruct (bool_decide_reflect (card_number = "")) as [->|Hn]; simpl.
  { split; [done|]. left. simpl. lia. }
  destruct (Nat.ltb_spec (String.length card_number) 12); simpl.
  { split; [done|]. by left. }
  destruct (bool_decide_reflect (holder_name = "")); simpl; [by auto|].
  destruct (Z.ltb_spec expiry_date now); simpl.
  - split; [done|]. split; [done|]. split; [done|]. split; [|done].
    split; [done|]. intros [_ ?]. lia.
  - split; [done|]. split; [done|]. split; [done|]. split.
    + split; [by intros ->|by intros [-> _]].
    + done.
Qed.

Lemma length_append (s1 s2 : string) :
  String.length (s1 +:+ s2) = (String.length s1 + String.length s2)%nat.
Proof. induction s1 as [|c s1 IH]; simpl; [done|]. by rewrite IH. Qed.

Lemma length_str_repeat (n : nat) : String.length (str_repeat "*" n) = n.
Proof. induction n as [|n IH]; simpl; [done|]. f_equal. exact IH. Qed.

Lemma get_str_repeat (n i : nat) :
  (i < n)%nat → String.get i (str_repeat "*" n) = Some "*"%char.
Proof.
  revert i. induction n as [|n IH]; intros i Hi; [lia|].
  destruct i as [|i]; simpl; [done|]. apply IH. lia.
Qed.

Lemma length_substring (n m : nat) (s : string) :
  (n + m ≤ String.length s)%nat → String.length (String.substring n m s) = m.
Proof.
  revert n m. induction s as [|c s IH]; intros n m Hl; simpl in *.
  - by destruct n, m; simpl; try lia.
  - destruct n as [|n]; [destruct m as [|m]|]; simpl; [done| |].
    + f_equal. apply IH. lia.
    + apply IH. lia.
Qed.

(** X29.  [mask_account_number] and [mask_card_number] keep the length of the
    number and show its last four characters only: every character before
    them is a star, and a number shorter than four characters is all
    stars. *)
Theorem masked_characters (number : string) :
  String.length (masked number) = String.length number
  ∧ ∀ i, (i < String.length number)%nat →
      String.get i (masked number)
      = if (String.length number <? 4)%nat || (i + 4 <? String.length number)%nat
        then Some "*"%char
        else String.get i number.
Proof.
  unfold masked, str_suffix.
  destruct (Nat.ltb_spec (String.length number) 4) as [Hshort|Hlong]; simpl.
  - split; [apply length_str_repeat|]. intros i Hi. by apply get_str_repeat.
  - split.
    + rewrite length_append, length_str_repeat, length_substring by lia. lia.
    + intros i Hi. destruct (Nat.ltb_spec (i + 4) (String.length number)).
      * rewrite <- String.append_correct1 by (rewrite length_str_repeat; lia).
        apply get_str_repeat. lia.
      * replace i with ((i - (String.length number - 4))
                        + String.length (str_repeat "*" (String.length number - 4)))%nat
          at 1 by (rewrite length_str_repeat; lia).
        rewrite <- String.append_correct2.
        rewrite String.substring_correct1 by lia. f_equal. lia.
Qed.

End ModelProperties.

(** ** The further properties at work on the test doubles *)

Section FurtherOnTheMocks.

Import ATMController Examples.

Abbreviation john_doe :=
  (Card.Build "1234567890123456" "John Doe" 31536000 "DEBIT" true).

(** A valid card goes in (test_insert_valid_card). *)
Lemma insert_card_outcome_witness :
  true = true
  ∧ _state (after (insert_card "1234567890123456") (fixture 5000)) = CARD_INSERTED
  ∧ (∃ card,
       _current_card (after (insert_card "1234567890123456") (fixture 5000)) = Some card
       ∧ last (calls (after (insert_card "1234567890123456") (fixture 5000)))
         = Some (Call.read_card "1234567890123456" (Return card)))
  ∧ _current_account (after (insert_card "1234567890123456") (fixture 5000))
    = _current_account (fixture 5000)
  ∧ _transaction_history (after (insert_card "1234567890123456") (fixture 5000))
    = _transaction_history (fixture 5000).
Proof.
  apply (insert_card_outcome (fixture 5000) "1234567890123456" (Return true)
           (after (insert_card "1234567890123456") (fixture 5000))).
  - vm_compute. reflexivity.
  - vm_compute. reflexivity.
Defined.

(** The card the bank holds invalid (test_insert_invalid_card). *)
Lemma insert_card_rejected_witness :
  ∃ w', insert_card "3456789012345678" (fixture 5000)
        = (Raise (Exn InvalidCardException "Invalid card"), w')
        ∧ calls w' = calls (fixture 5000)
                     ++ [Call.validate_card "3456789012345678" (Return false)]
        ∧ _card_reader w' = _card_reader (fixture 5000)
        ∧ session w' = (IDLE, None, None, []).
Proof.
  eapply (insert_card_rejected (fixture 5000) "3456789012345678").
  - vm_compute. reflexivity.
  - vm_compute. reflexivity.
Defined.

(** The bank goes offline while a PIN is entered: the exception passes
    through and the card stays in. *)
Lemma enter_pin_bank_error_witness :
  ∃ w', enter_pin "1234" offline_card_inserted
        = (Raise (Exn ATMMaintenanceException "Bank is unreachable"), w')
        ∧ session w' = session offline_card_inserted.
Proof.
  eapply (enter_pin_bank_error offline_card_inserted john_doe "1234"
            (Exn ATMMaintenanceException "Bank is unreachable")).
  - vm_compute. reflexivity.
  - vm_compute. reflexivity.
  - vm_compute. reflexivity.
Defined.


(** The jammed dispenser's exception is the one that reaches the caller. *)
Lemma exception_origin_witness :
  isinstance (Exn InsufficientCashException "Unable to dispense cash") ATMException = true
  ∨ ∃ c, last (calls (after (withdraw 200) jammed_selected_1001)) = Some c
         ∧ Call.raised c = Some (Exn InsufficientCashException "Unable to dispense cash")
         ∧ (length (calls jammed_selected_1001)
            < length (calls (after (withdraw 200) jammed_selected_1001)))%nat.
Proof.
  apply (exception_origin (Op.withdraw 200) jammed_selected_1001).
  vm_compute. reflexivity.
Defined.

(** A deposit of 500 on account "1001" (test_deposit_success). *)
Lemma money_movement_updates_cache_witness :
  0 < 500
  ∧ _state (selected_1001 5000) = ACCOUNT_SELECTED
  ∧ _state (after (deposit 500) (selected_1001 5000)) = ACCOUNT_SELECTED
  ∧ _current_card (after (deposit 500) (selected_1001 5000))
    = _current_card (selected_1001 5000)
  ∧ ∃ account,
      _current_account (selected_1001 5000) = Some account
      ∧ _current_account (after (deposit 500) (selected_1001 5000)) = Some account
      ∧ Account.balance (deref (heap (after (deposit 500) (selected_1001 5000))) account)
        = 1500.
Proof.
  apply (money_movement_updates_cache (Tx.deposit 500) (selected_1001 5000)
           (Transaction.Build Transaction.DEPOSIT 500 "1001" 1500 "uuid-0" 1)
           (after (deposit 500) (selected_1001 5000))).
  vm_compute. reflexivity.
Defined.

(** A balance inquiry on account "1001" (test_get_balance). *)
Lemma get_balance_outcome_witness :
  session (after get_balance (selected_1001 5000)) = session (selected_1001 5000)
  ∧ ∀ balance, Return 1000 = Return balance →
      ∃ account number,
        _current_account (selected_1001 5000) = Some account
        ∧ last (calls (after get_balance (selected_1001 5000)))
          = Some (Call.get_balance number (Return balance))
        ∧ Account.balance (deref (heap (after get_balance (selected_1001 5000))) account)
          = balance.
Proof.
  apply (get_balance_outcome (selected_1001 5000) (Return 1000)
           (after get_balance (selected_1001 5000))).
  vm_compute. reflexivity.
Defined.

(** A withdrawal of 200 from account "1001" (test_withdraw_success). *)
Lemma dispense_only_after_debit_witness :
  Op.withdraw 200 = Op.withdraw 200
  ∧ ∃ before number new_balance,
      withdrawal_200_calls
      = before ++ [Call.withdraw number 200 (Return new_balance);
                   Call.dispense_cash 200 (Return true)].
Proof.
  apply (dispense_only_after_debit (Op.withdraw 200) (selected_1001 5000)).
  - vm_compute. reflexivity.
  - apply list_elem_of_In. vm_compute. tauto.
Defined.

Lemma debit_only_after_checks_witness :
  Op.withdraw 200 = Op.withdraw 200
  ∧ 0 < 200
  ∧ ∃ number' balance rest,
      200 ≤ balance
      ∧ withdrawal_200_calls
        = [Call.has_sufficient_cash 200 (Return true);
           Call.get_balance number' (Return balance);
           Call.withdraw "1001" 200 (Return 800)] ++ rest.
Proof.
  apply (debit_only_after_checks (Op.withdraw 200) (selected_1001 5000)).
  - vm_compute. reflexivity.
  - apply list_elem_of_In. vm_compute. tauto.
Defined.

(** 200 dispensed from an inventory of 5000. *)
Lemma dispense_cash_conserves_witness :
  4800 + 200 = 5000 + 0
  ∧ (0 ≤ 5000 → 0 ≤ 4800)
  ∧ true = true ∧ 0 < 200 ≤ 5000 ∧ 4800 = 5000 - 200.
Proof.
  apply (dispense_cash_conserves (MockCashDispenser.new 5000) 200 (Return true)
           (MockCashDispenser.Build 4800 200)).
  reflexivity.
Defined.

Lemma sufficient_cash_iff_dispensable_witness :
  (MockCashDispenser.has_sufficient_cash 200 (MockCashDispenser.new 100)).1 = Return true
  ↔ ∃ d', MockCashDispenser.dispense_cash 200 (MockCashDispenser.new 100)
          = (Return true, d').
Proof.
  apply (sufficient_cash_iff_dispensable (MockCashDispenser.new 100) 200). lia.
Defined.

(** Account "9999" does not exist (test_select_invalid_account). *)
Lemma bank_unknown_account_witness :
  MockBankService.get_account "9999" (fixture_bank, fixture_heap)
  = (Return None, (fixture_bank, fixture_heap))
  ∧ MockBankService.get_balance "9999" (fixture_bank, fixture_heap)
    = (Raise (Exn ValueError ("Account " +:+ "9999" +:+ " not found")),
       (fixture_bank, fixture_heap))
  ∧ MockBankService.deposit "9999" 100 (fixture_bank, fixture_heap)
    = (Raise (Exn ValueError ("Account " +:+ "9999" +:+ " not found")),
       (fixture_bank, fixture_heap))
  ∧ MockBankService.withdraw "9999" 100 (fixture_bank, fixture_heap)
    = (Raise (Exn ValueError ("Account " +:+ "9999" +:+ " not found")),
       (fixture_bank, fixture_heap)).
Proof.
  apply (bank_unknown_account fixture_bank fixture_heap "9999" 100).
  vm_compute. reflexivity.
Defined.

(** 200 withdrawn from account "1001" at the bank. *)
Lemma bank_withdraw_outcome_witness :
  fixture_bank = fixture_bank
  ∧ 0 < 200 ≤ Account.balance (deref fixture_heap 0%nat)
  ∧ 800 = Account.balance (deref fixture_heap 0%nat) - 200
  ∧ 0 ≤ 800
  ∧ assign_balance 0%nat 800 fixture_heap = assign_balance 0%nat 800 fixture_heap
  ∧ Account.balance (deref (assign_balance 0%nat 800 fixture_heap) 0%nat) = 800.
Proof.
  apply (bank_withdraw_outcome fixture_bank fixture_bank fixture_heap
           (assign_balance 0%nat 800 fixture_heap) "1001" 0%nat 200 (Return 800)).
  - vm_compute. reflexivity.
  - vm_compute. reflexivity.
Defined.

(** 500 deposited to account "1001" and withdrawn again. *)
Lemma bank_deposit_withdraw_roundtrip_witness :
  ∃ h1, MockBankService.deposit "1001" 500 (fixture_bank, fixture_heap)
        = (Return (Account.balance MockBankService.account_1001 + 500),
           (fixture_bank, h1))
        ∧ MockBankService.withdraw "1001" 500 (fixture_bank, h1)
          = (Return (Account.balance MockBankService.account_1001),
             (fixture_bank, fixture_heap)).
Proof.
  apply (bank_deposit_withdraw_roundtrip fixture_bank fixture_heap "1001" 0%nat
           MockBankService.account_1001 500).
  - vm_compute. reflexivity.
  - vm_compute. reflexivity.
  - lia.
  - vm_compute. discriminate.
Defined.

(** The bank of the fixture after a deposit. *)
Lemma bank_keeps_keyed_witness :
  MockBankService.keyed
    (MockBankService.deposit "1001" 500 (fixture_bank, fixture_heap)).2.1
    (MockBankService.deposit "1001" 500 (fixture_bank, fixture_heap)).2.2
  ∧ MockBankService.keyed
      (MockBankService.withdraw "1001" 500 (fixture_bank, fixture_heap)).2.1
      (MockBankService.withdraw "1001" 500 (fixture_bank, fixture_heap)).2.2
  ∧ ∀ account a, fixture_heap !! account = Some a →
      MockBankService.keyed
        (MockBankService.add_test_account account fixture_heap fixture_bank) fixture_heap.
Proof.
  apply (bank_keeps_keyed fixture_bank fixture_heap "1001" 500).
  apply (bool_decide_unpack _). vm_compute. exact I.
Defined.

(** The savings account "1002" is listed for John Doe's card and can be
    selected. *)
Lemma listed_account_selectable_witness :
  ∃ w2, select_account
          (Account.account_number (deref (heap (after get_accounts pin_verified)) 1%nat))
          (after get_accounts pin_verified)
        = (Return 1%nat, w2)
        ∧ _state w2 = ACCOUNT_SELECTED
        ∧ _current_account w2 = Some 1%nat.
Proof.
  apply (listed_account_selectable pin_verified john_doe [0%nat; 1%nat]
           (after get_accounts pin_verified) 1%nat).
  - vm_compute. reflexivity.
  - vm_compute. reflexivity.
  - apply (bool_decide_unpack _). vm_compute. exact I.
  - vm_compute. reflexivity.
  - apply list_elem_of_In. vm_compute. tauto.
Defined.

(** With the mock bank the account held is the bank's own object. *)
Lemma get_balance_on_shared_object_witness :
  ∃ w', get_balance (selected_1001 5000)
        = (Return (Account.balance MockBankService.account_1001), w')
        ∧ heap w' = heap (selected_1001 5000)
        ∧ _bank_service w' = _bank_service (selected_1001 5000)
        ∧ session w' = session (selected_1001 5000)
        ∧ calls w'
          = calls (selected_1001 5000)
            ++ [Call.get_balance (Account.account_number MockBankService.account_1001)
                  (Return (Account.balance MockBankService.account_1001))].
Proof.
  apply (get_balance_on_shared_object (selected_1001 5000) 0%nat
           MockBankService.account_1001).
  - vm_compute. reflexivity.
  - vm_compute. reflexivity.
  - vm_compute. reflexivity.
  - vm_compute. reflexivity.
Defined.

(** A withdrawal the bank refuses has debited nothing. *)
Lemma mock_dispenser_no_debit_on_failure_witness :
  Call.withdraw "1001" 1500 (Return (-500))
  ∉ [Call.has_sufficient_cash 1500 (Return true); Call.get_balance "1001" (Return 1000)].
Proof.
  apply (mock_dispenser_no_debit_on_failure (selected_1001 5000) 1500
           (Exn InsufficientFundsException "Insufficient funds in account")
           (after (withdraw 1500) (selected_1001 5000))).
  - vm_compute. reflexivity.
  - vm_compute. reflexivity.
Defined.

(** 200 withdrawn from account "1001" on the mocks (test_withdraw_success). *)
Lemma mock_withdraw_moves_money_witness :
  ∃ tx w',
    withdraw 200 (selected_1001 5000) = (Return tx, w')
    ∧ Transaction.balance_after tx = Account.balance MockBankService.account_1001 - 200
    ∧ Transaction.account_number tx = Account.account_number MockBankService.account_1001
    ∧ heap w'
      = <[0%nat := Account.set_balance
                     (Account.balance MockBankService.account_1001 - 200)
                     MockBankService.account_1001]> (heap (selected_1001 5000))
    ∧ MockCashDispenser._available_cash (_cash_dispenser w')
      = MockCashDispenser._available_cash (_cash_dispenser (selected_1001 5000)) - 200
    ∧ MockCashDispenser._total_dispensed (_cash_dispenser w')
      = MockCashDispenser._total_dispensed (_cash_dispenser (selected_1001 5000)) + 200
    ∧ _transaction_history w' = _transaction_history (selected_1001 5000) ++ [tx].
Proof.
  apply (mock_withdraw_moves_money (selected_1001 5000) 200 0%nat
           MockBankService.account_1001).
  - vm_compute. reflexivity.
  - vm_compute. reflexivity.
  - vm_compute. reflexivity.
  - vm_compute. reflexivity.
  - lia.
  - vm_compute. discriminate.
  - vm_compute. discriminate.
Defined.

(** The expired card is refused by the reader, which stays as it was. *)
Lemma read_card_outcome_witness :
  exn_class (Exn InvalidCardException "Card is expired") = InvalidCardException
  ∧ MockCardReader.new 0 = MockCardReader.new 0.
Proof.
  apply (read_card_outcome (MockCardReader.new 0) (MockCardReader.new 0)
           "3456789012345678" (Raise (Exn InvalidCardException "Card is expired"))).
  vm_compute. reflexivity.
Defined.

(** John Doe's card read and ejected. *)
Lemma read_then_eject_witness :
  MockCardReader.eject_card
    (MockCardReader.read_card "1234567890123456" (MockCardReader.new 0)).2
  = (Return true, MockCardReader.new 0).
Proof.
  apply (read_then_eject (MockCardReader.new 0) _ "1234567890123456" john_doe).
  - reflexivity.
  - reflexivity.
  - vm_compute. reflexivity.
Defined.

(** The checking account of the fixture, as its constructor call builds it:
    600 can be withdrawn, 1200 cannot. *)
Lemma constructed_account_can_withdraw_witness :
  is_Some (Account.daily_withdrawal_limit MockBankService.account_1001)
  ∧ (Account.can_withdraw MockBankService.account_1001 600 = true
     ↔ Account.withdrawal_allowed MockBankService.account_1001 600).
Proof.
  apply (constructed_account_can_withdraw "1001" Account.CHECKING 1000
           "Primary Checking" true None).
  - discriminate.
  - reflexivity.
Defined.

Lemma can_withdraw_monotone_witness :
  Account.can_withdraw MockBankService.account_1001 10 = true.
Proof.
  apply (can_withdraw_monotone MockBankService.account_1001 600 10).
  - reflexivity.
  - lia.
Defined.

(** John Doe's PIN is verified, and his card is one the bank validates. *)
Lemma verify_pin_implies_valid_witness :
  (MockBankService.validate_card "1234567890123456" (fixture_bank, fixture_heap)).1
  = Return true.
Proof.
  apply (verify_pin_implies_valid fixture_bank fixture_heap "1234567890123456" "1234").
  vm_compute. reflexivity.
Defined.

(** The card the bank holds invalid is not verified even with its PIN. *)
Example invalid_card_pin_not_verified :
  (MockBankService.verify_pin "3456789012345678" "9999" (fixture_bank, fixture_heap)).1
  = Return false.
Proof. vm_compute. reflexivity. Qed.

End FurtherOnTheMocks.
